(** * odlpet: scanner geometry, compression and the STIR projector pair

    A shallow embedding of [odlpet/scanner/scanner.py],
    [odlpet/scanner/compression.py] and [odlpet/stir/bindings.py].

    Python integers are [Z]; Python floats are IEEE binary64 values of
    [spec_float]; [np.int32] and [np.float32] are written out.  The [stir]
    extension module is an interface ([StirEngine]) whose objects live in an
    explicit engine state ([World]); Python code that calls into the engine is
    written in a state-and-exception monad over that state. *)

From Stdlib Require Import ZArith String Ascii List DecimalString.
From Stdlib Require Import Floats.SpecFloat.
From stdpp Require Import base decidable list gmap strings.

Local Open Scope Z_scope.
Local Open Scope string_scope.
Local Open Scope list_scope.

(** ** Python values *)

(** Exceptions raised by the code under study.  [StirError] stands for an
    exception propagated from inside an engine call; [AttributeError] names
    the attribute an object turned out not to have. *)
Inductive exn : Type :=
| ValueError (msg : string)
| TypeError (msg : string)
| StirError (msg : string)
| AttributeError (attribute : string).

(** A number passed where the code expects a float: a Python [int] or a
    Python [float] (binary64). *)
Inductive pynum : Type :=
| PyInt (z : Z)
| PyFloat (f : spec_float).

(** [np.int32(z)] for a Python int: the low 32 bits, read as a signed value
    (the C cast of NumPy 1.x; the identity on the int32 range, which is all
    the properties below rely on). *)
Definition np_int32 (z : Z) : Z := (z + 2 ^ 31) mod 2 ^ 32 - 2 ^ 31.

(** [np.float32(x)]: round to nearest-even binary32. *)
Definition np_float32 (x : pynum) : spec_float :=
  match x with
  | PyInt z => binary_normalize 24 128 z 0 false
  | PyFloat (S754_finite s m e) => binary_round 24 128 s m e
  | PyFloat f => f
  end.

(** [int(n / 2)] for a Python int [n]: true division, then truncation toward
    zero ([n / 2] is exact in binary64 for [|n| < 2^53]). *)
Definition int_truediv_2 (n : Z) : Z := Z.quot n 2.

(** [str(z)] for an int. *)
Definition str_int (z : Z) : string := NilZero.string_of_int (Z.to_int z).

Fixpoint join (sep : string) (l : list string) : string :=
  match l with
  | [] => ""
  | [x] => x
  | x :: l' => x ++ sep ++ join sep l'
  end.

(** [str(t)] for a tuple of ints, as ['{}'.format(t)] prints it. *)
Definition str_tuple (t : list Z) : string :=
  match t with
  | [x] => "(" ++ str_int x ++ ",)"
  | _ => "(" ++ join ", " (map str_int t) ++ ")"
  end.

(** [s.split(sep)] for a one-character separator. *)
Fixpoint split (sep : ascii) (s : string) : list string :=
  match s with
  | EmptyString => [EmptyString]
  | String c s' =>
      if Ascii.eqb c sep then EmptyString :: split sep s'
      else match split sep s' with
           | [] => [String c EmptyString]
           | p :: ps => String c p :: ps
           end
  end.

Definition isspace (c : ascii) : bool :=
  let n := nat_of_ascii c in
  ((9 <=? n) && (n <=? 13) || (28 <=? n) && (n <=? 32))%nat.

(** [s.rstrip()]: trailing ASCII whitespace removed. *)
Fixpoint rstrip (s : string) : string :=
  match s with
  | EmptyString => EmptyString
  | String c s' =>
      match rstrip s' with
      | EmptyString => if isspace c then EmptyString else String c EmptyString
      | r => String c r
      end
  end.

(** ** The engine: objects of the [stir] module *)

(** [stir.Scanner]: the fields behind the getters and setters the code uses. *)
Record StirScanner : Type := mkStirScanner {
  get_num_rings : Z;
  get_num_detectors_per_ring : Z;
  get_default_bin_size : spec_float;
  get_default_num_arccorrected_bins : Z;
  get_default_intrinsic_tilt : spec_float;
  get_inner_ring_radius : spec_float;
  get_ring_spacing : spec_float;
  get_average_depth_of_interaction : spec_float;
  get_max_num_non_arccorrected_bins : Z;
  get_num_axial_blocks_per_bucket : Z;
  get_num_transaxial_blocks_per_bucket : Z;
  get_num_axial_crystals_per_block : Z;
  get_num_transaxial_crystals_per_block : Z;
  get_num_axial_crystals_per_singles_unit : Z;
  get_num_transaxial_crystals_per_singles_unit : Z;
  get_num_detector_layers : Z
}.

Definition set_num_rings (v : Z) (s : StirScanner) : StirScanner :=
  let '(mkStirScanner _ a2 a3 a4 a5 a6 a7 a8 a9 a10 a11 a12 a13 a14 a15 a16) := s in
  mkStirScanner v a2 a3 a4 a5 a6 a7 a8 a9 a10 a11 a12 a13 a14 a15 a16.
Definition set_num_detectors_per_ring (v : Z) (s : StirScanner) : StirScanner :=
  let '(mkStirScanner a1 _ a3 a4 a5 a6 a7 a8 a9 a10 a11 a12 a13 a14 a15 a16) := s in
  mkStirScanner a1 v a3 a4 a5 a6 a7 a8 a9 a10 a11 a12 a13 a14 a15 a16.
Definition set_default_bin_size (v : spec_float) (s : StirScanner) : StirScanner :=
  let '(mkStirScanner a1 a2 _ a4 a5 a6 a7 a8 a9 a10 a11 a12 a13 a14 a15 a16) := s in
  mkStirScanner a1 a2 v a4 a5 a6 a7 a8 a9 a10 a11 a12 a13 a14 a15 a16.
Definition set_default_num_arccorrected_bins (v : Z) (s : StirScanner) : StirScanner :=
  let '(mkStirScanner a1 a2 a3 _ a5 a6 a7 a8 a9 a10 a11 a12 a13 a14 a15 a16) := s in
  mkStirScanner a1 a2 a3 v a5 a6 a7 a8 a9 a10 a11 a12 a13 a14 a15 a16.
Definition set_default_intrinsic_tilt (v : spec_float) (s : StirScanner) : StirScanner :=
  let '(mkStirScanner a1 a2 a3 a4 _ a6 a7 a8 a9 a10 a11 a12 a13 a14 a15 a16) := s in
  mkStirScanner a1 a2 a3 a4 v a6 a7 a8 a9 a10 a11 a12 a13 a14 a15 a16.
Definition set_inner_ring_radius (v : spec_float) (s : StirScanner) : StirScanner :=
  let '(mkStirScanner a1 a2 a3 a4 a5 _ a7 a8 a9 a10 a11 a12 a13 a14 a15 a16) := s in
  mkStirScanner a1 a2 a3 a4 a5 v a7 a8 a9 a10 a11 a12 a13 a14 a15 a16.
Definition set_ring_spacing (v : spec_float) (s : StirScanner) : StirScanner :=
  let '(mkStirScanner a1 a2 a3 a4 a5 a6 _ a8 a9 a10 a11 a12 a13 a14 a15 a16) := s in
  mkStirScanner a1 a2 a3 a4 a5 a6 v a8 a9 a10 a11 a12 a13 a14 a15 a16.
Definition set_average_depth_of_interaction (v : spec_float) (s : StirScanner) : StirScanner :=
  let '(mkStirScanner a1 a2 a3 a4 a5 a6 a7 _ a9 a10 a11 a12 a13 a14 a15 a16) := s in
  mkStirScanner a1 a2 a3 a4 a5 a6 a7 v a9 a10 a11 a12 a13 a14 a15 a16.
Definition set_max_num_non_arccorrected_bins (v : Z) (s : StirScanner) : StirScanner :=
  let '(mkStirScanner a1 a2 a3 a4 a5 a6 a7 a8 _ a10 a11 a12 a13 a14 a15 a16) := s in
  mkStirScanner a1 a2 a3 a4 a5 a6 a7 a8 v a10 a11 a12 a13 a14 a15 a16.
Definition set_num_axial_blocks_per_bucket (v : Z) (s : StirScanner) : StirScanner :=
  let '(mkStirScanner a1 a2 a3 a4 a5 a6 a7 a8 a9 _ a11 a12 a13 a14 a15 a16) := s in
  mkStirScanner a1 a2 a3 a4 a5 a6 a7 a8 a9 v a11 a12 a13 a14 a15 a16.
Definition set_num_transaxial_blocks_per_bucket (v : Z) (s : StirScanner) : StirScanner :=
  let '(mkStirScanner a1 a2 a3 a4 a5 a6 a7 a8 a9 a10 _ a12 a13 a14 a15 a16) := s in
  mkStirScanner a1 a2 a3 a4 a5 a6 a7 a8 a9 a10 v a12 a13 a14 a15 a16.
Definition set_num_axial_crystals_per_block (v : Z) (s : StirScanner) : StirScanner :=
  let '(mkStirScanner a1 a2 a3 a4 a5 a6 a7 a8 a9 a10 a11 _ a13 a14 a15 a16) := s in
  mkStirScanner a1 a2 a3 a4 a5 a6 a7 a8 a9 a10 a11 v a13 a14 a15 a16.
Definition set_num_transaxial_crystals_per_block (v : Z) (s : StirScanner) : StirScanner :=
  let '(mkStirScanner a1 a2 a3 a4 a5 a6 a7 a8 a9 a10 a11 a12 _ a14 a15 a16) := s in
  mkStirScanner a1 a2 a3 a4 a5 a6 a7 a8 a9 a10 a11 a12 v a14 a15 a16.
Definition set_num_axial_crystals_per_singles_unit (v : Z) (s : StirScanner) : StirScanner :=
  let '(mkStirScanner a1 a2 a3 a4 a5 a6 a7 a8 a9 a10 a11 a12 a13 _ a15 a16) := s in
  mkStirScanner a1 a2 a3 a4 a5 a6 a7 a8 a9 a10 a11 a12 a13 v a15 a16.
Definition set_num_transaxial_crystals_per_singles_unit (v : Z) (s : StirScanner) : StirScanner :=
  let '(mkStirScanner a1 a2 a3 a4 a5 a6 a7 a8 a9 a10 a11 a12 a13 a14 _ a16) := s in
  mkStirScanner a1 a2 a3 a4 a5 a6 a7 a8 a9 a10 a11 a12 a13 a14 v a16.
Definition set_num_detector_layers (v : Z) (s : StirScanner) : StirScanner :=
  let '(mkStirScanner a1 a2 a3 a4 a5 a6 a7 a8 a9 a10 a11 a12 a13 a14 a15 _) := s in
  mkStirScanner a1 a2 a3 a4 a5 a6 a7 a8 a9 a10 a11 a12 a13 a14 a15 v.

(** [stir.ProjDataInfo.ProjDataInfoCTI(scanner, span, max_delta, num_views,
    num_tangential_poss, arc_corrected)]: the descriptor is the constructor's
    arguments as the Python code passes them (a count may be [None]). *)
Record ProjDataInfo : Type := ProjDataInfoCTI {
  pdi_scanner : StirScanner;
  pdi_span : Z;
  pdi_max_delta : Z;
  pdi_num_views : option Z;
  pdi_num_tangential_poss : option Z;
  pdi_arc_corrected : bool
}.

(** An ODL space ([DiscreteLp]); the wrappers only look at its shape. *)
Record DiscreteLp : Type := { shape : list Z }.

(** [stir.FloatVoxelsOnCartesianGrid]: object identity and [shape()]; the
    voxel values are in the engine state. *)
Record FloatVoxelsOnCartesianGrid : Type := {
  vol_id : nat;
  vol_shape : list Z
}.

(** [stir.ProjData]: object identity, [to_array().shape()] and
    [get_proj_data_info()]; the bin values are in the engine state. *)
Record ProjData : Type := {
  pd_id : nat;
  pd_shape : list Z;
  get_proj_data_info : ProjDataInfo
}.

(** Something with a [fill] method. *)
Inductive buffer : Type :=
| VolumeBuf (id : nat)
| ProjDataBuf (id : nat).

(** [stir.ProjMatrixByBinUsingRayTracing]: what the Python code has asked of
    the object.  [None] is a setter never called (the engine's own default
    applies); [pm_set_up] is the argument of the last [set_up] call. *)
Record ProjMatrixByBinUsingRayTracing : Type := mkProjMatrix {
  do_symmetry_90degrees_min_phi : option bool;
  do_symmetry_180degrees_min_phi : option bool;
  do_symmetry_swap_s : option bool;
  do_symmetry_swap_segment : option bool;
  num_tangential_LORs : option Z;
  pm_set_up : option (ProjDataInfo * FloatVoxelsOnCartesianGrid)
}.

(** The object [stir.ProjMatrixByBinUsingRayTracing()] returns. *)
Definition fresh_proj_matrix : ProjMatrixByBinUsingRayTracing :=
  mkProjMatrix None None None None None None.

Definition set_do_symmetry_90degrees_min_phi (b : bool) (m : ProjMatrixByBinUsingRayTracing) :=
  let '(mkProjMatrix _ a2 a3 a4 a5 a6) := m in mkProjMatrix (Some b) a2 a3 a4 a5 a6.
Definition set_do_symmetry_180degrees_min_phi (b : bool) (m : ProjMatrixByBinUsingRayTracing) :=
  let '(mkProjMatrix a1 _ a3 a4 a5 a6) := m in mkProjMatrix a1 (Some b) a3 a4 a5 a6.
Definition set_do_symmetry_swap_s (b : bool) (m : ProjMatrixByBinUsingRayTracing) :=
  let '(mkProjMatrix a1 a2 _ a4 a5 a6) := m in mkProjMatrix a1 a2 (Some b) a4 a5 a6.
Definition set_do_symmetry_swap_segment (b : bool) (m : ProjMatrixByBinUsingRayTracing) :=
  let '(mkProjMatrix a1 a2 a3 _ a5 a6) := m in mkProjMatrix a1 a2 a3 (Some b) a5 a6.
Definition set_num_tangential_LORs (n : Z) (m : ProjMatrixByBinUsingRayTracing) :=
  let '(mkProjMatrix a1 a2 a3 a4 _ a6) := m in mkProjMatrix a1 a2 a3 a4 (Some n) a6.
Definition matrix_set_up (i : ProjDataInfo) (v : FloatVoxelsOnCartesianGrid)
    (m : ProjMatrixByBinUsingRayTracing) :=
  let '(mkProjMatrix a1 a2 a3 a4 a5 _) := m in mkProjMatrix a1 a2 a3 a4 a5 (Some (i, v)).

(** [stir.ForwardProjectorByBinUsingProjMatrixByBin(m)] and its back
    counterpart: the matrix object the projector was built on and the
    argument of its last [set_up] call. *)
Record ProjectorByBin : Type := {
  proj_matrix_of : nat;
  projector_set_up : option (ProjDataInfo * FloatVoxelsOnCartesianGrid)
}.

Definition projector_do_set_up (i : ProjDataInfo) (v : FloatVoxelsOnCartesianGrid)
    (p : ProjectorByBin) : ProjectorByBin :=
  {| proj_matrix_of := proj_matrix_of p; projector_set_up := Some (i, v) |}.

(** ** The operator objects of [bindings.py] *)

Record ForwardProjectorByBinWrapper : Type := {
  fw_verbosity : Z;
  fw_domain : DiscreteLp;
  fw_range : DiscreteLp;
  fw_proj_data : ProjData;
  fw_proj_data_info : ProjDataInfo;
  fw_volume : FloatVoxelsOnCartesianGrid;
  fw_proj_matrix : option nat;
  fw_projector : nat;
  fw_adjoint : option nat
}.

Record BackProjectorByBinWrapper : Type := {
  bw_verbosity : Z;
  bw_domain : DiscreteLp;
  bw_range : DiscreteLp;
  bw_proj_data : ProjData;
  bw_proj_data_info : ProjDataInfo;
  bw_volume : FloatVoxelsOnCartesianGrid;
  bw_back_projector : nat;
  bw_adjoint : option nat
}.

(** A [ForwardProjectorByBinWrapper] object as the call that ends
    [BackProjectorByBinWrapper.__init__] (l.236-238) builds it.  That call
    passes [(..., self.proj_data, projector, self)] by position, and the
    signature at l.64-66 has [_proj_info] fifth and [projector] sixth: the
    engine projector (or [None]) arrives as [_proj_info], the back operator
    as [projector], and [adjoint] stays [None].  So the attribute
    [proj_data_info] holds the engine forward projector when one was passed
    ([inr]), and the attribute [projector] holds the address of an operator;
    [self.proj_matrix] is never set. *)
Record ForwardWrapperOnOperator : Type := {
  fo_verbosity : Z;
  fo_domain : DiscreteLp;
  fo_range : DiscreteLp;
  fo_proj_data : ProjData;
  fo_proj_data_info : ProjDataInfo + nat;
  fo_volume : FloatVoxelsOnCartesianGrid;
  fo_projector : nat;
  fo_adjoint : option nat
}.

Inductive Operator : Type :=
| Forward (f : ForwardProjectorByBinWrapper)
| Back (b : BackProjectorByBinWrapper)
| ForwardOnOperator (f : ForwardWrapperOnOperator).

(** [self._adjoint = a] *)
Definition set_adjoint (a : nat) (o : Operator) : Operator :=
  match o with
  | Forward f =>
      Forward {| fw_verbosity := fw_verbosity f; fw_domain := fw_domain f;
                 fw_range := fw_range f; fw_proj_data := fw_proj_data f;
                 fw_proj_data_info := fw_proj_data_info f;
                 fw_volume := fw_volume f; fw_proj_matrix := fw_proj_matrix f;
                 fw_projector := fw_projector f; fw_adjoint := Some a |}
  | Back b =>
      Back {| bw_verbosity := bw_verbosity b; bw_domain := bw_domain b;
              bw_range := bw_range b; bw_proj_data := bw_proj_data b;
              bw_proj_data_info := bw_proj_data_info b;
              bw_volume := bw_volume b;
              bw_back_projector := bw_back_projector b; bw_adjoint := Some a |}
  | ForwardOnOperator f =>
      ForwardOnOperator
        {| fo_verbosity := fo_verbosity f; fo_domain := fo_domain f;
           fo_range := fo_range f; fo_proj_data := fo_proj_data f;
           fo_proj_data_info := fo_proj_data_info f;
           fo_volume := fo_volume f; fo_projector := fo_projector f;
           fo_adjoint := Some a |}
  end.

(** The attribute [self._adjoint], which both classes set. *)
Definition _adjoint (o : Operator) : option nat :=
  match o with
  | Forward f => fw_adjoint f
  | Back b => bw_adjoint b
  | ForwardOnOperator f => fo_adjoint f
  end.

(** The [adjoint] property.  Only [ForwardProjectorByBinWrapper] defines it
    (l.158-161), returning [self._adjoint]; [BackProjectorByBinWrapper] sets
    [_adjoint] but has no property of its own to read it back ([None]). *)
Definition adjoint (o : Operator) : option nat :=
  match o with
  | Forward f => fw_adjoint f
  | ForwardOnOperator f => fo_adjoint f
  | Back _ => None
  end.

(** ** Engine state and the calls the Python code makes into it *)

Inductive direction : Type := forward_project | back_project.

(** A call into the engine, with what the engine could see of its
    arguments: for a projection, the verbosity level in force and the
    contents of destination and source at the time of the call. *)
Inductive Event : Type :=
| Ev_get_scanner_from_name (name : string)
| Ev_Verbosity_get (level : Z)
| Ev_Verbosity_set (level : Z)
| Ev_fill (b : buffer) (data : list spec_float)
| Ev_project (d : direction) (projector : nat) (level : Z)
             (dst_before src : list spec_float).

(** The state the Python code shares with the engine: the process-wide
    verbosity level, the values held by the volume and projection-data
    objects (by object identity), the matrix and projector objects created so
    far (an object's identity is its index), the operator objects of
    [bindings.py], and the calls made into the engine, oldest first. *)
Record World : Type := mkWorld {
  Verbosity : Z;
  volume_data : gmap nat (list spec_float);
  proj_data_data : gmap nat (list spec_float);
  proj_matrices : list ProjMatrixByBinUsingRayTracing;
  forward_projectors : list ProjectorByBin;
  back_projectors : list ProjectorByBin;
  operators : list Operator;
  trace : list Event
}.

(** The [stir] module as an interface: what the engine computes is not
    part of this code base. *)
Class StirEngine : Type := {
  (** [stir.Scanner_list_all_names()] *)
  Scanner_list_all_names : string;
  (** [stir.Scanner.get_scanner_from_name(name)] *)
  Scanner_get_scanner_from_name : string -> StirScanner;
  (** [scanner.check_consistency() == stir.Succeeded(stir.Succeeded.yes)] *)
  check_consistency_yes : StirScanner -> bool;
  (** [projector.forward_project(dst, src)] / [back_project(dst, src)]: from
      the projector's matrix (if the object exists), the verbosity level in
      force, the destination's contents and the source's contents, the new
      contents of the destination and the message of the exception raised,
      if any. *)
  project : direction -> option ProjMatrixByBinUsingRayTracing -> Z ->
            list spec_float -> list spec_float ->
            list spec_float * option string
}.

(** ** The interpreter monad: engine state plus Python exceptions *)

Inductive result (A : Type) : Type :=
| Return (a : A)
| Raise (e : exn)
| OutOfFuel.
Arguments Return {A} a.
Arguments Raise {A} e.
Arguments OutOfFuel {A}.

Definition M (A : Type) : Type := World -> World * result A.

Definition ret {A} (a : A) : M A := fun w => (w, Return a).
Definition raise {A} (e : exn) : M A := fun w => (w, Raise e).
Definition out_of_fuel {A} : M A := fun w => (w, OutOfFuel).

Definition bind {A B} (m : M A) (k : A -> M B) : M B :=
  fun w =>
    match m w with
    | (w', Return a) => k a w'
    | (w', Raise e) => (w', Raise e)
    | (w', OutOfFuel) => (w', OutOfFuel)
    end.

Declare Scope py_scope.
Delimit Scope py_scope with py.
Notation "'let*' x ':=' m 'in' k" := (bind m (fun x => k))
  (at level 10, x name, m at level 100, k at level 200) : py_scope.
Notation "'let*' ' p ':=' m 'in' k" := (bind m (fun x => match x with p => k end))
  (at level 10, p strict pattern, m at level 100, k at level 200) : py_scope.
Notation "m ';;;' k" := (bind m (fun _ => k))
  (at level 100, k at level 200, right associativity) : py_scope.
Local Open Scope py_scope.

(** [try: body finally: cleanup], which is what a [with] block whose
    [__exit__] returns [None] amounts to: [cleanup] runs on every exit of
    [body]; an exception of [body] is re-raised after it. *)
Definition try_finally {A} (body : M A) (cleanup : M unit) : M A :=
  fun w =>
    match body w with
    | (w1, r) =>
        match cleanup w1 with
        | (w2, Return _) => (w2, r)
        | (w2, Raise e) => (w2, Raise e)
        | (w2, OutOfFuel) => (w2, OutOfFuel)
        end
    end.

Definition log (e : Event) (w : World) : World :=
  mkWorld (Verbosity w) (volume_data w) (proj_data_data w) (proj_matrices w)
          (forward_projectors w) (back_projectors w) (operators w)
          (trace w ++ [e]).

(** [stir.Verbosity.get()] and [stir.Verbosity.set(level)]. *)
Definition Verbosity_get : M Z :=
  fun w => (log (Ev_Verbosity_get (Verbosity w)) w, Return (Verbosity w)).

Definition Verbosity_set (level : Z) : M unit :=
  fun w =>
    (mkWorld level (volume_data w) (proj_data_data w) (proj_matrices w)
             (forward_projectors w) (back_projectors w) (operators w)
             (trace w ++ [Ev_Verbosity_set level]),
     Return tt).

(** The contents of a buffer object. *)
Definition contents (b : buffer) (w : World) : list spec_float :=
  match b with
  | VolumeBuf i => default [] (volume_data w !! i)
  | ProjDataBuf i => default [] (proj_data_data w !! i)
  end.

Definition store (b : buffer) (data : list spec_float) (w : World) : World :=
  match b with
  | VolumeBuf i =>
      mkWorld (Verbosity w) (<[i := data]> (volume_data w)) (proj_data_data w)
              (proj_matrices w) (forward_projectors w) (back_projectors w)
              (operators w) (trace w)
  | ProjDataBuf i =>
      mkWorld (Verbosity w) (volume_data w) (<[i := data]> (proj_data_data w))
              (proj_matrices w) (forward_projectors w) (back_projectors w)
              (operators w) (trace w)
  end.

(** [b.fill(data)] *)
Definition fill (b : buffer) (data : list spec_float) : M unit :=
  fun w => (log (Ev_fill b data) (store b data w), Return tt).

(** [stirextra.to_numpy(b)] *)
Definition to_numpy (b : buffer) : M (list spec_float) :=
  fun w => (w, Return (contents b w)).

(** [stir.ProjMatrixByBinUsingRayTracing()] *)
Definition new_ProjMatrixByBinUsingRayTracing : M nat :=
  fun w =>
    (mkWorld (Verbosity w) (volume_data w) (proj_data_data w)
             (proj_matrices w ++ [fresh_proj_matrix])
             (forward_projectors w) (back_projectors w) (operators w) (trace w),
     Return (length (proj_matrices w))).

(** A method call [m.method(...)] on a matrix object. *)
Definition on_matrix (m : nat)
    (method : ProjMatrixByBinUsingRayTracing -> ProjMatrixByBinUsingRayTracing) : M unit :=
  fun w =>
    (mkWorld (Verbosity w) (volume_data w) (proj_data_data w)
             (alter method m (proj_matrices w))
             (forward_projectors w) (back_projectors w) (operators w) (trace w),
     Return tt).

(** [stir.ForwardProjectorByBinUsingProjMatrixByBin(m)] *)
Definition new_ForwardProjectorByBinUsingProjMatrixByBin (m : nat) : M nat :=
  fun w =>
    (mkWorld (Verbosity w) (volume_data w) (proj_data_data w) (proj_matrices w)
             (forward_projectors w ++ [{| proj_matrix_of := m; projector_set_up := None |}])
             (back_projectors w) (operators w) (trace w),
     Return (length (forward_projectors w))).

(** [stir.BackProjectorByBinUsingProjMatrixByBin(m)] *)
Definition new_BackProjectorByBinUsingProjMatrixByBin (m : nat) : M nat :=
  fun w =>
    (mkWorld (Verbosity w) (volume_data w) (proj_data_data w) (proj_matrices w)
             (forward_projectors w)
             (back_projectors w ++ [{| proj_matrix_of := m; projector_set_up := None |}])
             (operators w) (trace w),
     Return (length (back_projectors w))).

(** [p.set_up(info, volume)] on a forward, respectively back, projector. *)
Definition forward_projector_set_up (p : nat) (i : ProjDataInfo)
    (v : FloatVoxelsOnCartesianGrid) : M unit :=
  fun w =>
    (mkWorld (Verbosity w) (volume_data w) (proj_data_data w) (proj_matrices w)
             (alter (projector_do_set_up i v) p (forward_projectors w))
             (back_projectors w) (operators w) (trace w),
     Return tt).

Definition back_projector_set_up (p : nat) (i : ProjDataInfo)
    (v : FloatVoxelsOnCartesianGrid) : M unit :=
  fun w =>
    (mkWorld (Verbosity w) (volume_data w) (proj_data_data w) (proj_matrices w)
             (forward_projectors w)
             (alter (projector_do_set_up i v) p (back_projectors w))
             (operators w) (trace w),
     Return tt).

(** The operator object becomes reachable: it gets the next address of the
    object store.  (A constructor that raises earlier leaves nothing behind.) *)
Definition new_operator (o : Operator) : M nat :=
  fun w =>
    (mkWorld (Verbosity w) (volume_data w) (proj_data_data w) (proj_matrices w)
             (forward_projectors w) (back_projectors w) (operators w ++ [o])
             (trace w),
     Return (length (operators w))).

(** [self._adjoint = a] on the object at address [self]. *)
Definition assign_adjoint (self a : nat) : M unit :=
  fun w =>
    (mkWorld (Verbosity w) (volume_data w) (proj_data_data w) (proj_matrices w)
             (forward_projectors w) (back_projectors w)
             (alter (set_adjoint a) self (operators w)) (trace w),
     Return tt).

(** The matrix object behind an engine projector. *)
Definition matrix_of_projector (d : direction) (p : nat) (w : World)
    : option ProjMatrixByBinUsingRayTracing :=
  let ps := match d with
            | forward_project => forward_projectors w
            | back_project => back_projectors w
            end in
  pr ← ps !! p; proj_matrices w !! proj_matrix_of pr.

Section engine.
Context `{StirEngine}.

(** The bound method [projector.forward_project] or
    [back_projector.back_project] applied to [(dst, src)]: the engine reads
    both buffers and the verbosity level, writes [dst], and returns or
    raises. *)
Definition call_projector (d : direction) (p : nat) (dst src : buffer) : M unit :=
  fun w =>
    let '(out, err) :=
      project d (matrix_of_projector d p w) (Verbosity w)
              (contents dst w) (contents src w) in
    let w' := log (Ev_project d p (Verbosity w) (contents dst w) (contents src w))
                  (store dst out w) in
    match err with
    | None => (w', Return tt)
    | Some msg => (w', Raise (StirError msg))
    end.

End engine.

(** ** odlpet/scanner/scanner.py *)

(** The Python [Scanner] class.  The two bin counts are class attributes
    initialised to [None]. *)
Record Scanner : Type := {
  num_rings : Z;
  num_dets_per_ring : Z;
  voxel_size_xy : pynum;
  default_non_arc_cor_bins : option Z;
  intrinsic_tilt : pynum;
  det_radius : pynum;
  ring_spacing : pynum;
  average_depth_of_inter : pynum;
  max_num_non_arc_cor_bins : option Z;
  axials_blocks_per_bucket : Z;
  trans_blocks_per_bucket : Z;
  axial_crystals_per_block : Z;
  trans_crystals_per_block : Z;
  axial_crystals_per_singles_unit : Z;
  trans_crystals_per_singles_unit : Z;
  num_detector_layers : Z
}.

(** A Python float literal [m * 2^e]. *)
Definition py_float (m e : Z) : pynum := PyFloat (binary_normalize 53 1024 m e false).

(** [class mCT(Scanner)]: [ring_spacing = det_ny_mm = 6.25]. *)
Definition mCT : Scanner := {|
  num_rings := 8;
  num_dets_per_ring := 112;
  det_radius := py_float 115 (-1);
  average_depth_of_inter := py_float 7 0;
  ring_spacing := py_float 25 (-2);
  voxel_size_xy := py_float 7430939385161318 (-52);
  axial_crystals_per_block := 8;
  trans_crystals_per_block := 7;
  axials_blocks_per_bucket := 1;
  trans_blocks_per_bucket := 16;
  axial_crystals_per_singles_unit := 8;
  trans_crystals_per_singles_unit := 0;
  num_detector_layers := 1;
  intrinsic_tilt := py_float 0 0;
  max_num_non_arc_cor_bins := None;
  default_non_arc_cor_bins := None
|}.

(** [_scanner_from_stir] *)
Definition _scanner_from_stir (stir_scanner : StirScanner) : Scanner := {|
  num_rings := get_num_rings stir_scanner;
  num_dets_per_ring := get_num_detectors_per_ring stir_scanner;
  voxel_size_xy := PyFloat (get_default_bin_size stir_scanner);
  default_non_arc_cor_bins := Some (get_default_num_arccorrected_bins stir_scanner);
  intrinsic_tilt := PyFloat (get_default_intrinsic_tilt stir_scanner);
  det_radius := PyFloat (get_inner_ring_radius stir_scanner);
  ring_spacing := PyFloat (get_ring_spacing stir_scanner);
  average_depth_of_inter := PyFloat (get_average_depth_of_interaction stir_scanner);
  max_num_non_arc_cor_bins := Some (get_max_num_non_arccorrected_bins stir_scanner);
  axials_blocks_per_bucket := get_num_axial_blocks_per_bucket stir_scanner;
  trans_blocks_per_bucket := get_num_transaxial_blocks_per_bucket stir_scanner;
  axial_crystals_per_block := get_num_axial_crystals_per_block stir_scanner;
  trans_crystals_per_block := get_num_transaxial_crystals_per_block stir_scanner;
  axial_crystals_per_singles_unit := get_num_axial_crystals_per_singles_unit stir_scanner;
  trans_crystals_per_singles_unit := get_num_transaxial_crystals_per_singles_unit stir_scanner;
  num_detector_layers := get_num_detector_layers stir_scanner
|}.

Definition newline : ascii := ascii_of_nat 10.
Definition comma : ascii := ascii_of_nat 44.

Section scanner_py.
Context `{StirEngine}.

(** [get_scanner_names] *)
Definition get_scanner_names : list string :=
  let all_names := Scanner_list_all_names in
  map (fun name_ => rstrip (hd "" (split comma name_)))
      (removelast (split newline all_names)).

Definition SCANNER_NAMES : list string := get_scanner_names.

(** [stir.Scanner.get_scanner_from_name(name)]: the engine builds a scanner
    object. *)
Definition get_scanner_from_name (name : string) : M StirScanner :=
  fun w => (log (Ev_get_scanner_from_name name) w,
            Return (Scanner_get_scanner_from_name name)).

(** [_get_scanner_by_name] *)
Definition _get_scanner_by_name (name : string) : M StirScanner :=
  if bool_decide (name ∉ SCANNER_NAMES) then
    raise (ValueError ("No default scanner of name " ++ name))
  else
    let* stir_scanner := get_scanner_from_name name in
    ret stir_scanner.

(** [get_scanner_by_name] *)
Definition get_scanner_by_name (name : string) : M Scanner :=
  let* stir_scanner := _get_scanner_by_name name in
  ret (_scanner_from_stir stir_scanner).

(** [_check_consistency] *)
Definition _check_consistency (_scanner : StirScanner) : bool :=
  check_consistency_yes _scanner.

(** [stir_get_STIR_geometry].  A parameter with a default in the [def] line
    is an [option]: [None] is the argument left out. *)
Definition stir_get_STIR_geometry
    (_num_rings _num_dets_per_ring : Z)
    (_det_radius _ring_spacing _average_depth_of_inter _voxel_size_xy : pynum)
    (_axial_crystals_per_block _trans_crystals_per_block
     _axials_blocks_per_bucket _trans_blocks_per_bucket
     _axial_crystals_per_singles_unit _trans_crystals_per_singles_unit
     _num_detector_layers : option Z)
    (_intrinsic_tilt : option pynum)
    (max_num_non_arc_cor_bins _default_non_arc_cor_bins : option Z)
    : M StirScanner :=
  let _axial_crystals_per_block := default 1 _axial_crystals_per_block in
  let _trans_crystals_per_block := default 1 _trans_crystals_per_block in
  let _axials_blocks_per_bucket := default 1 _axials_blocks_per_bucket in
  let _trans_blocks_per_bucket := default 1 _trans_blocks_per_bucket in
  let _axial_crystals_per_singles_unit := default 1 _axial_crystals_per_singles_unit in
  let _trans_crystals_per_singles_unit := default 1 _trans_crystals_per_singles_unit in
  let _num_detector_layers := default 1 _num_detector_layers in
  let _intrinsic_tilt := default (PyInt 0) _intrinsic_tilt in
  let max_num_non_arc_cor_bins :=
    match max_num_non_arc_cor_bins with
    | None => int_truediv_2 _num_dets_per_ring
    | Some n => n
    end in
  let _default_non_arc_cor_bins :=
    match _default_non_arc_cor_bins with
    | None => max_num_non_arc_cor_bins
    | Some n => n
    end in
  let* scanner := get_scanner_from_name "" in
  let scanner := set_num_rings (np_int32 _num_rings) scanner in
  let scanner := set_num_detectors_per_ring (np_int32 _num_dets_per_ring) scanner in
  let scanner := set_default_bin_size (np_float32 _voxel_size_xy) scanner in
  let scanner := set_default_num_arccorrected_bins (np_int32 _default_non_arc_cor_bins) scanner in
  let scanner := set_default_intrinsic_tilt (np_float32 _intrinsic_tilt) scanner in
  let scanner := set_inner_ring_radius (np_float32 _det_radius) scanner in
  let scanner := set_ring_spacing (np_float32 _ring_spacing) scanner in
  let scanner := set_average_depth_of_interaction (np_float32 _average_depth_of_inter) scanner in
  let scanner := set_max_num_non_arccorrected_bins (np_int32 max_num_non_arc_cor_bins) scanner in
  let scanner := set_num_axial_blocks_per_bucket (np_int32 _axials_blocks_per_bucket) scanner in
  let scanner := set_num_transaxial_blocks_per_bucket (np_int32 _trans_blocks_per_bucket) scanner in
  let scanner := set_num_axial_crystals_per_block (np_int32 _axial_crystals_per_block) scanner in
  let scanner := set_num_transaxial_crystals_per_block (np_int32 _trans_crystals_per_block) scanner in
  let scanner := set_num_axial_crystals_per_singles_unit (np_int32 _axial_crystals_per_singles_unit) scanner in
  let scanner := set_num_transaxial_crystals_per_singles_unit (np_int32 _trans_crystals_per_singles_unit) scanner in
  let scanner := set_num_detector_layers (np_int32 _num_detector_layers) scanner in
  if _check_consistency scanner then ret scanner
  else raise (TypeError "Something is wrong in the scanner geometry.").

(** [Scanner.get_stir_scanner]: every argument is passed. *)
Definition get_stir_scanner (self : Scanner) : M StirScanner :=
  stir_get_STIR_geometry
    (num_rings self) (num_dets_per_ring self)
    (det_radius self) (ring_spacing self)
    (average_depth_of_inter self) (voxel_size_xy self)
    (Some (axial_crystals_per_block self)) (Some (trans_crystals_per_block self))
    (Some (axials_blocks_per_bucket self)) (Some (trans_blocks_per_bucket self))
    (Some (axial_crystals_per_singles_unit self))
    (Some (trans_crystals_per_singles_unit self))
    (Some (num_detector_layers self)) (Some (intrinsic_tilt self))
    (max_num_non_arc_cor_bins self) (default_non_arc_cor_bins self).

End scanner_py.

(** ** odlpet/scanner/compression.py *)

(** The attributes of a [Compression] object; all are plain attributes the
    caller may reassign, the counts possibly to [None]. *)
Record Compression : Type := {
  scanner : Scanner;
  span_num : Z;
  max_num_segments : option Z;
  num_of_views : option Z;
  num_non_arccor_bins : option Z;
  data_arc_corrected : bool
}.

(** [Compression.__init__]; [//] is floor division, which is [Z.div]. *)
Definition Compression_init (scanner : Scanner) : Compression := {|
  scanner := scanner;
  span_num := 1;
  max_num_segments := None;
  num_of_views := Some (num_dets_per_ring scanner / 2);
  num_non_arccor_bins := Some (num_dets_per_ring scanner / 2);
  data_arc_corrected := false
|}.

(** [get_default_num_tangential] *)
Definition get_default_num_tangential (self : Compression) : option Z :=
  if data_arc_corrected self then default_non_arc_cor_bins (scanner self)
  else max_num_non_arc_cor_bins (scanner self).

(** [get_num_tangential] *)
Definition get_num_tangential (self : Compression) : option Z :=
  match num_non_arccor_bins self with
  | None => get_default_num_tangential self
  | Some n => Some n
  end.

(** [get_default_max_diff_ring] *)
Definition get_default_max_diff_ring (self : Compression) : Z :=
  num_rings (scanner self) - 1.

(** [get_max_ring_diff] *)
Definition get_max_ring_diff (self : Compression) : Z :=
  match max_num_segments self with
  | None => get_default_max_diff_ring self
  | Some n => n
  end.

Section compression_py.
Context `{StirEngine}.

(** [get_stir_proj_data_info] *)
Definition get_stir_proj_data_info (self : Compression) : M ProjDataInfo :=
  let* _stir_scanner := get_stir_scanner (scanner self) in
  let proj_data_info :=
    ProjDataInfoCTI _stir_scanner
                    (span_num self)
                    (get_max_ring_diff self)
                    (num_of_views self)
                    (get_num_tangential self)
                    (data_arc_corrected self) in
  ret proj_data_info.

End compression_py.

(** ** odlpet/stir/bindings.py *)

(** [class StirVerbosity] *)
Record StirVerbosity : Type := {
  sv_verbosity : Z;
  old_verbosity : option Z
}.

Definition StirVerbosity_init (verbosity : Z) : StirVerbosity :=
  {| sv_verbosity := verbosity; old_verbosity := None |}.

(** [__enter__]: the object is mutated, so the new object is returned. *)
Definition StirVerbosity_enter (self : StirVerbosity) : M StirVerbosity :=
  let* old := Verbosity_get in
  let self := {| sv_verbosity := sv_verbosity self; old_verbosity := Some old |} in
  Verbosity_set (sv_verbosity self) ;;;
  ret self.

(** [__exit__]; the engine setter takes an int, not [None]. *)
Definition StirVerbosity_exit (self : StirVerbosity) : M unit :=
  match old_verbosity self with
  | Some old => Verbosity_set old
  | None => raise (TypeError "Verbosity.set: int expected")
  end.

(** [with StirVerbosity(verbosity): body] *)
Definition with_StirVerbosity {A} (verbosity : Z) (body : M A) : M A :=
  let ctx := StirVerbosity_init verbosity in
  let* ctx := StirVerbosity_enter ctx in
  try_finally body (StirVerbosity_exit ctx).

(** [space.zero().asarray().flat]: one zero per cell. *)
Definition zero (space : DiscreteLp) : list spec_float :=
  replicate (Z.to_nat (foldr Z.mul 1 (shape space))) (S754_zero false).

Definition volume_buffer (v : FloatVoxelsOnCartesianGrid) : buffer := VolumeBuf (vol_id v).
Definition proj_data_buffer (p : ProjData) : buffer := ProjDataBuf (pd_id p).

Section bindings_py.
Context `{StirEngine}.

(** [call_with_stir_buffer]; [function] is the bound method of engine
    projector [p] in direction [d]. *)
Definition call_with_stir_buffer (d : direction) (p : nat) (b_in b_out : buffer)
    (v_in : list spec_float) (v_out : option (list spec_float))
    : M (list spec_float) :=
  fill b_in v_in ;;;
  match v_out with
  | Some v_out => fill b_out v_out
  | None => ret tt
  end ;;;
  call_projector d p b_out b_in ;;;
  to_numpy b_out.

(** [ForwardProjectorByBinWrapper.__init__] and
    [BackProjectorByBinWrapper.__init__] call each other; [fuel] bounds the
    depth of the nesting.  [ForwardProjectorByBinWrapper_init] is the forward
    constructor on arguments of the documented kinds (a descriptor as
    [_proj_info], an engine projector as [projector]);
    [ForwardProjectorByBinWrapper_init_on_operator] is the same constructor
    on the arguments the back constructor hands it at l.236-238: an engine
    projector or [None] as [_proj_info], an operator as [projector]. *)
#[warnings="-non-full-mutual"]
Fixpoint ForwardProjectorByBinWrapper_init (fuel : nat)
    (domain range : DiscreteLp) (volume : FloatVoxelsOnCartesianGrid)
    (proj_data : ProjData) (_proj_info : option ProjDataInfo)
    (projector adjoint : option nat) (verbosity : Z) {struct fuel} : M nat :=
  match fuel with
  | O => out_of_fuel
  | S fuel =>
    if bool_decide (shape domain ≠ vol_shape volume) then
      raise (ValueError ("domain.shape " ++ str_tuple (shape domain) ++
                         " does not equal volume shape " ++
                         str_tuple (vol_shape volume)))
    else
    let proj_shape := pd_shape proj_data in
    if bool_decide (shape range ≠ proj_shape) then
      raise (ValueError ("range.shape " ++ str_tuple (shape range) ++
                         " does not equal proj shape " ++
                         str_tuple proj_shape))
    else
    let proj_data_info :=
      match _proj_info with
      | None => get_proj_data_info proj_data
      | Some i => i
      end in
    let* '(proj_matrix, projector, back_projector) :=
      match projector with
      | None =>
        let* proj_matrix := new_ProjMatrixByBinUsingRayTracing in
        on_matrix proj_matrix (set_do_symmetry_90degrees_min_phi true) ;;;
        on_matrix proj_matrix (set_do_symmetry_180degrees_min_phi true) ;;;
        on_matrix proj_matrix (set_do_symmetry_swap_s true) ;;;
        on_matrix proj_matrix (set_do_symmetry_swap_segment true) ;;;
        on_matrix proj_matrix (set_num_tangential_LORs (np_int32 1)) ;;;
        on_matrix proj_matrix (matrix_set_up proj_data_info volume) ;;;
        let* projector := new_ForwardProjectorByBinUsingProjMatrixByBin proj_matrix in
        forward_projector_set_up projector proj_data_info volume ;;;
        let* back_projector :=
          match adjoint with
          | None =>
            let* back_projector :=
              new_BackProjectorByBinUsingProjMatrixByBin proj_matrix in
            back_projector_set_up back_projector proj_data_info volume ;;;
            ret (Some back_projector)
          | Some _ => ret None
          end in
        ret (Some proj_matrix, projector, back_projector)
      | Some projector => ret (None, projector, None)
      end in
    let* self := new_operator (Forward {|
      fw_verbosity := verbosity; fw_domain := domain; fw_range := range;
      fw_proj_data := proj_data; fw_proj_data_info := proj_data_info;
      fw_volume := volume; fw_proj_matrix := proj_matrix;
      fw_projector := projector; fw_adjoint := None |}) in
    let* _adjoint :=
      match adjoint with
      | None =>
        BackProjectorByBinWrapper_init fuel range domain volume proj_data
                                       back_projector (Some self) 0
      | Some adjoint => ret adjoint
      end in
    assign_adjoint self _adjoint ;;;
    ret self
  end
with BackProjectorByBinWrapper_init (fuel : nat)
    (domain range : DiscreteLp) (volume : FloatVoxelsOnCartesianGrid)
    (proj_data : ProjData)
    (back_projector adjoint : option nat) (verbosity : Z) {struct fuel} : M nat :=
  match fuel with
  | O => out_of_fuel
  | S fuel =>
    if bool_decide (shape range ≠ vol_shape volume) then
      raise (ValueError ("`range.shape` " ++ str_tuple (shape range) ++
                         " does not equal volume shape " ++
                         str_tuple (vol_shape volume)))
    else
    let proj_shape := pd_shape proj_data in
    if bool_decide (shape domain ≠ proj_shape) then
      raise (ValueError ("`domain.shape` " ++ str_tuple (shape range) ++
                         " does not equal proj shape " ++
                         str_tuple proj_shape))
    else
    let proj_data_info := get_proj_data_info proj_data in
    let* '(back_projector, projector) :=
      match back_projector with
      | None =>
        let* proj_matrix := new_ProjMatrixByBinUsingRayTracing in
        let* back_projector :=
          new_BackProjectorByBinUsingProjMatrixByBin proj_matrix in
        back_projector_set_up back_projector
                              (get_proj_data_info proj_data) volume ;;;
        let* projector :=
          match adjoint with
          | None =>
            let* projector :=
              new_ForwardProjectorByBinUsingProjMatrixByBin proj_matrix in
            forward_projector_set_up projector proj_data_info volume ;;;
            ret (Some projector)
          | Some _ => ret None
          end in
        ret (back_projector, projector)
      | Some back_projector => ret (back_projector, None)
      end in
    let* self := new_operator (Back {|
      bw_verbosity := verbosity; bw_domain := domain; bw_range := range;
      bw_proj_data := proj_data; bw_proj_data_info := proj_data_info;
      bw_volume := volume; bw_back_projector := back_projector;
      bw_adjoint := None |}) in
    let* _adjoint :=
      match adjoint with
      | None =>
        ForwardProjectorByBinWrapper_init_on_operator
          fuel range domain volume proj_data projector self None 0
      | Some adjoint => ret adjoint
      end in
    assign_adjoint self _adjoint ;;;
    ret self
  end
with ForwardProjectorByBinWrapper_init_on_operator (fuel : nat)
    (domain range : DiscreteLp) (volume : FloatVoxelsOnCartesianGrid)
    (proj_data : ProjData) (_proj_info : option nat) (projector : nat)
    (adjoint : option nat) (verbosity : Z) {struct fuel} : M nat :=
  match fuel with
  | O => out_of_fuel
  | S fuel =>
    if bool_decide (shape domain ≠ vol_shape volume) then
      raise (ValueError ("domain.shape " ++ str_tuple (shape domain) ++
                         " does not equal volume shape " ++
                         str_tuple (vol_shape volume)))
    else
    let proj_shape := pd_shape proj_data in
    if bool_decide (shape range ≠ proj_shape) then
      raise (ValueError ("range.shape " ++ str_tuple (shape range) ++
                         " does not equal proj shape " ++
                         str_tuple proj_shape))
    else
    let proj_data_info :=
      match _proj_info with
      | None => inl (get_proj_data_info proj_data)
      | Some p => inr p
      end in
    (* [projector is None] is false: the [else] branch of l.132-136 *)
    let back_projector : option nat := None in
    let* self := new_operator (ForwardOnOperator {|
      fo_verbosity := verbosity; fo_domain := domain; fo_range := range;
      fo_proj_data := proj_data; fo_proj_data_info := proj_data_info;
      fo_volume := volume; fo_projector := projector; fo_adjoint := None |}) in
    let* _adjoint :=
      match adjoint with
      | None =>
        BackProjectorByBinWrapper_init fuel range domain volume proj_data
                                       back_projector (Some self) 0
      | Some adjoint => ret adjoint
      end in
    assign_adjoint self _adjoint ;;;
    ret self
  end.

(** [ForwardProjectorByBinWrapper._call]; [out[:] = res] is the returned
    array. *)
Definition ForwardProjectorByBinWrapper_call (self : ForwardProjectorByBinWrapper)
    (volume : list spec_float) : M (list spec_float) :=
  fill (volume_buffer (fw_volume self)) volume ;;;
  let* res :=
    with_StirVerbosity (fw_verbosity self)
      (call_with_stir_buffer forward_project (fw_projector self)
         (volume_buffer (fw_volume self)) (proj_data_buffer (fw_proj_data self))
         volume None) in
  ret res.

(** [BackProjectorByBinWrapper._call] *)
Definition BackProjectorByBinWrapper_call (self : BackProjectorByBinWrapper)
    (projections : list spec_float) : M (list spec_float) :=
  let* res :=
    with_StirVerbosity (bw_verbosity self)
      (call_with_stir_buffer back_project (bw_back_projector self)
         (proj_data_buffer (bw_proj_data self)) (volume_buffer (bw_volume self))
         projections (Some (zero (bw_range self)))) in
  ret res.

(** [ForwardProjectorByBinWrapper._call] on an object whose [projector]
    attribute is an operator: inside the [with] block the lookup
    [self.projector.forward_project] finds no such attribute on the wrapper
    classes of this file. *)
Definition ForwardWrapperOnOperator_call (self : ForwardWrapperOnOperator)
    (volume : list spec_float) : M (list spec_float) :=
  fill (volume_buffer (fo_volume self)) volume ;;;
  let* res :=
    with_StirVerbosity (fo_verbosity self)
      (raise (AttributeError "forward_project")) in
  ret res.

End bindings_py.

(** ** Observations on the object store *)

(** The [_adjoint] attribute of the operator at address [r]. *)
Definition adjoint_of (w : World) (r : nat) : option nat :=
  o ← operators w !! r; _adjoint o.

(** [op.adjoint], through the property, for the operator at address [r]. *)
Definition adjoint_property_of (w : World) (r : nat) : option nat :=
  o ← operators w !! r; adjoint o.

(** The matrix object under the engine projector of the operator at [r]; a
    forward wrapper whose [projector] attribute is an operator has no engine
    projector under it. *)
Definition matrix_under (w : World) (r : nat) : option nat :=
  o ← operators w !! r;
  match o with
  | Forward f => proj_matrix_of <$> forward_projectors w !! fw_projector f
  | Back b => proj_matrix_of <$> back_projectors w !! bw_back_projector b
  | ForwardOnOperator _ => None
  end.

(** The class of the object at [r]. *)
Definition is_forward (w : World) (r : nat) : bool :=
  match operators w !! r with
  | Some (Forward _) | Some (ForwardOnOperator _) => true
  | _ => false
  end.

Definition is_back (w : World) (r : nat) : bool :=
  match operators w !! r with Some (Back _) => true | _ => false end.

(** ** A small engine to run the code on

    Three registered scanners; a geometry is consistent when the detectors of
    a ring split evenly over its transaxial blocks; a projection copies the
    source over the destination and fails when the projector does not exist. *)

Definition sample_names : string :=
  "ECAT 931, ART" ++ String newline
    ("ECAT HR+  , HR+, 962" ++ String newline
       ("Siemens mCT" ++ String newline "")).

Definition blank_scanner : StirScanner :=
  mkStirScanner 0 0 (S754_zero false) 0 (S754_zero false) (S754_zero false)
                (S754_zero false) (S754_zero false) 0 0 0 0 0 0 0 0.

Definition sample_check (s : StirScanner) : bool :=
  ((0 <? get_num_rings s) && (0 <? get_num_detectors_per_ring s) &&
   (0 <? get_num_transaxial_crystals_per_block s * get_num_transaxial_blocks_per_bucket s) &&
   (get_num_detectors_per_ring s
      mod (get_num_transaxial_crystals_per_block s * get_num_transaxial_blocks_per_bucket s)
    =? 0))%Z.

Definition sample_project (d : direction) (m : option ProjMatrixByBinUsingRayTracing)
    (level : Z) (dst src : list spec_float) : list spec_float * option string :=
  match m with
  | Some _ => (src, None)
  | None => (dst, Some "no such projector")
  end.

#[local] Instance sample_engine : StirEngine := {|
  Scanner_list_all_names := sample_names;
  Scanner_get_scanner_from_name := fun _ => blank_scanner;
  check_consistency_yes := sample_check;
  project := sample_project
|}.

Definition empty_world : World := mkWorld 0 ∅ ∅ [] [] [] [] [].

Definition cube4 : DiscreteLp := {| shape := [4; 4; 4] |}.
Definition sino : DiscreteLp := {| shape := [5; 3; 4] |}.
Definition sample_info : ProjDataInfo :=
  ProjDataInfoCTI blank_scanner 1 7 (Some 56) (Some 56) false.
Definition sample_volume : FloatVoxelsOnCartesianGrid :=
  {| vol_id := 0; vol_shape := [4; 4; 4] |}.
Definition sample_proj_data : ProjData :=
  {| pd_id := 0; pd_shape := [5; 3; 4]; get_proj_data_info := sample_info |}.

(** A compression of [mCT] data limited to three segments, arc-corrected,
    with no tangential-bin count of its own. *)
Definition mCT_three_segments : Compression := {|
  scanner := mCT; span_num := 1; max_num_segments := Some 3;
  num_of_views := Some 56; num_non_arccor_bins := None;
  data_arc_corrected := true
|}.

(** The engine scanner [get_stir_scanner] builds for [mCT]. *)
Definition mCT_stir_scanner : StirScanner := {|
  get_num_rings := 8;
  get_num_detectors_per_ring := 112;
  get_default_bin_size := S754_finite false 13841203 (-23);
  get_default_num_arccorrected_bins := 56;
  get_default_intrinsic_tilt := S754_zero false;
  get_inner_ring_radius := S754_finite false 15073280 (-18);
  get_ring_spacing := S754_finite false 13107200 (-21);
  get_average_depth_of_interaction := S754_finite false 14680064 (-21);
  get_max_num_non_arccorrected_bins := 56;
  get_num_axial_blocks_per_bucket := 1;
  get_num_transaxial_blocks_per_bucket := 16;
  get_num_axial_crystals_per_block := 8;
  get_num_transaxial_crystals_per_block := 7;
  get_num_axial_crystals_per_singles_unit := 8;
  get_num_transaxial_crystals_per_singles_unit := 0;
  get_num_detector_layers := 1
|}.

Definition mCT_proj_data_info : ProjDataInfo :=
  ProjDataInfoCTI mCT_stir_scanner 1 7 (Some 56) (Some 56) false.

(** The matrix [ForwardProjectorByBinWrapper.__init__] leaves behind. *)
Definition forward_built_matrix (i : ProjDataInfo) (v : FloatVoxelsOnCartesianGrid)
    : ProjMatrixByBinUsingRayTracing :=
  mkProjMatrix (Some true) (Some true) (Some true) (Some true) (Some 1) (Some (i, v)).

(** The operator at [f] and its adjoint run on one and the same matrix. *)
Definition shares_system_matrix (w : World) (f : nat) : Prop :=
  exists b m : nat,
    adjoint_property_of w f = Some b /\ matrix_under w f = Some m /\
    matrix_under w b = Some m.

(** The engine forward projector [p], if the engine holds one at that
    address, was made from a matrix the engine holds: what
    [ForwardProjectorByBinUsingProjMatrixByBin(proj_matrix)] leaves. *)
Definition projector_on_existing_matrix (w : World) (p : nat) : Prop :=
  forall pr : ProjectorByBin,
    forward_projectors w !! p = Some pr ->
    (proj_matrix_of pr < length (proj_matrices w))%nat.

(** A state in which the caller has already built and set up a matrix and a
    forward projector on it. *)
Definition world_with_projector : World :=
  mkWorld 0 ∅ ∅
    [forward_built_matrix sample_info sample_volume]
    [{| proj_matrix_of := 0;
        projector_set_up := Some (sample_info, sample_volume) |}]
    [] [] [].

(** ** compression.py: sinogram bookkeeping *)

(** The getters of a [stir.ProjDataInfo] that [_get_sinogram_info] reads. *)
Class ProjDataInfoGetters : Type := {
  get_min_segment_num : ProjDataInfo -> Z;
  get_max_segment_num : ProjDataInfo -> Z;
  get_min_axial_pos_num : ProjDataInfo -> Z -> Z;
  get_max_axial_pos_num : ProjDataInfo -> Z -> Z
}.

(** [list(range(a, b))] *)
Definition py_range (a b : Z) : list Z := seqZ a (b - a).

Section sinogram_py.
Context `{StirEngine} `{ProjDataInfoGetters}.

(** [Compression._get_sinogram_info] *)
Definition _get_sinogram_info (self : Compression) : M (list (Z * Z)) :=
  let* proj_info := get_stir_proj_data_info self in
  let segments :=
    py_range (get_min_segment_num proj_info) (get_max_segment_num proj_info + 1) in
  let segment_sizes :=
    map (fun s => get_max_axial_pos_num proj_info s + 1
                  - get_min_axial_pos_num proj_info s) segments in
  ret (zip segments segment_sizes).

End sinogram_py.

(** Span-1 getters: segments [-max_delta .. max_delta]; segment [s] has the
    axial positions [0 .. num_rings - 1 - |s|]. *)
#[local] Instance sample_getters : ProjDataInfoGetters := {|
  get_min_segment_num := fun i => - pdi_max_delta i;
  get_max_segment_num := fun i => pdi_max_delta i;
  get_min_axial_pos_num := fun _ _ => 0;
  get_max_axial_pos_num := fun i s => get_num_rings (pdi_scanner i) - 1 - Z.abs s
|}.

(** ** Vocabulary for the properties below *)

(** How often a character occurs in a string. *)
Fixpoint count_char (c : ascii) (s : string) : nat :=
  match s with
  | EmptyString => 0
  | String c' s' => (if Ascii.eqb c' c then 1 else 0) + count_char c s'
  end.

(** A value an int32 setter, respectively a float32 setter, stores as it is. *)
Definition int32_value (z : Z) : Prop := - 2 ^ 31 <= z < 2 ^ 31.
Definition float32_value (f : spec_float) : Prop := np_float32 (PyFloat f) = f.

(** An engine scanner all of whose fields are such values. *)
Definition engine_scanner_values (s : StirScanner) : Prop :=
  (int32_value (get_num_rings s) /\
   int32_value (get_num_detectors_per_ring s) /\
   int32_value (get_default_num_arccorrected_bins s) /\
   int32_value (get_max_num_non_arccorrected_bins s) /\
   int32_value (get_num_axial_blocks_per_bucket s) /\
   int32_value (get_num_transaxial_blocks_per_bucket s) /\
   int32_value (get_num_axial_crystals_per_block s) /\
   int32_value (get_num_transaxial_crystals_per_block s) /\
   int32_value (get_num_axial_crystals_per_singles_unit s) /\
   int32_value (get_num_transaxial_crystals_per_singles_unit s) /\
   int32_value (get_num_detector_layers s)) /\
  (float32_value (get_default_bin_size s) /\
   float32_value (get_default_intrinsic_tilt s) /\
   float32_value (get_inner_ring_radius s) /\
   float32_value (get_ring_spacing s) /\
   float32_value (get_average_depth_of_interaction s)).

(** The part of the state that object construction may extend but an
    operator application may not touch. *)
Definition same_objects (w w' : World) : Prop :=
  proj_matrices w' = proj_matrices w /\
  forward_projectors w' = forward_projectors w /\
  back_projectors w' = back_projectors w /\
  operators w' = operators w.

(** The verbosity level and the contents of the buffers. *)
Definition same_engine_data (w w' : World) : Prop :=
  Verbosity w' = Verbosity w /\
  volume_data w' = volume_data w /\
  proj_data_data w' = proj_data_data w.

(** Every object of [w] is still in [w'], at its address and unchanged. *)
Definition objects_kept (w w' : World) : Prop :=
  proj_matrices w `prefix_of` proj_matrices w' /\
  forward_projectors w `prefix_of` forward_projectors w' /\
  back_projectors w `prefix_of` back_projectors w' /\
  operators w `prefix_of` operators w'.

(** Shapes that do not fit the sample volume and projection data. *)
Definition bad_volume : FloatVoxelsOnCartesianGrid :=
  {| vol_id := 0; vol_shape := [5; 4; 4] |}.
Definition bad_sino : DiscreteLp := {| shape := [5; 3; 5] |}.

(** A forward and a back operator on the sample volume and projection data,
    as the forward constructor builds them in an empty store. *)
Definition sample_forward_op : ForwardProjectorByBinWrapper :=
  {| fw_verbosity := 2; fw_domain := cube4; fw_range := sino;
     fw_proj_data := sample_proj_data; fw_proj_data_info := sample_info;
     fw_volume := sample_volume; fw_proj_matrix := Some 0%nat;
     fw_projector := 0; fw_adjoint := Some 1%nat |}.
Definition sample_back_op : BackProjectorByBinWrapper :=
  {| bw_verbosity := 0; bw_domain := sino; bw_range := cube4;
     bw_proj_data := sample_proj_data; bw_proj_data_info := sample_info;
     bw_volume := sample_volume; bw_back_projector := 0;
     bw_adjoint := Some 0%nat |}.

(** A state with one operator already in the store. *)
Definition world_with_operator : World :=
  mkWorld 0 ∅ ∅ [] [] []
    [Back {| bw_verbosity := 0; bw_domain := sino; bw_range := cube4;
             bw_proj_data := sample_proj_data;
             bw_proj_data_info := sample_info; bw_volume := sample_volume;
             bw_back_projector := 0; bw_adjoint := None |}]
    [].

(** * Properties *)

(** Split a conjunction of facts without touching the implications in it. *)
Ltac conjuncts := repeat match goal with |- _ /\ _ => split end.

(** ** Numbers *)

Lemma np_int32_small (z : Z) : - 2 ^ 31 <= z < 2 ^ 31 -> np_int32 z = z.
Proof.
  intros Hz. unfold np_int32.
  rewrite Z.mod_small; lia.
Qed.

Lemma int_truediv_2_floor (n : Z) : 0 <= n -> int_truediv_2 n = n / 2.
Proof.
  intros Hn. unfold int_truediv_2.
  apply Z.quot_div_nonneg; lia.
Qed.

(** Truncation and floor part ways below zero: [int(-3 / 2)] is [-1]. *)
Example int_truediv_2_negative : int_truediv_2 (-3) = -1 /\ -3 / 2 = -2.
Proof. split; reflexivity. Qed.

Example np_float32_voxel_size :
  np_float32 (voxel_size_xy mCT) = S754_finite false 13841203 (-23).
Proof. reflexivity. Qed.

Example str_tuple_examples :
  str_tuple [4; 4; 4] = "(4, 4, 4)" /\ str_tuple [7] = "(7,)" /\ str_tuple [] = "()".
Proof. repeat split; reflexivity. Qed.

Example sample_registry :
  @SCANNER_NAMES sample_engine = ["ECAT 931"; "ECAT HR+"; "Siemens mCT"].
Proof. reflexivity. Qed.

(** ** compression.py *)

(** C4: [get_max_ring_diff] returns [max_num_segments] when it is set and
    [scanner.num_rings - 1] when it is [None]; with eight rings and no
    segment limit that is 7. *)
Theorem get_max_ring_diff_effective (self : Compression) :
  (forall n, max_num_segments self = Some n -> get_max_ring_diff self = n) /\
  (max_num_segments self = None ->
   get_max_ring_diff self = num_rings (scanner self) - 1) /\
  (max_num_segments self = None -> num_rings (scanner self) = 8 ->
   get_max_ring_diff self = 7).
Proof.
  unfold get_max_ring_diff, get_default_max_diff_ring.
  conjuncts.
  - intros n Hn. now rewrite Hn.
  - intros Hn. now rewrite Hn.
  - intros Hn Hr. rewrite Hn, Hr. reflexivity.
Qed.

Lemma get_max_ring_diff_effective_witness :
  get_max_ring_diff mCT_three_segments = 3 /\
  get_max_ring_diff (Compression_init mCT) = num_rings mCT - 1 /\
  get_max_ring_diff (Compression_init mCT) = 7.
Proof.
  split; [| split].
  - apply (proj1 (get_max_ring_diff_effective mCT_three_segments)). reflexivity.
  - apply (proj1 (proj2 (get_max_ring_diff_effective (Compression_init mCT)))).
    reflexivity.
  - apply (proj2 (proj2 (get_max_ring_diff_effective (Compression_init mCT))));
      reflexivity.
Defined.

Section compression_facts.
Context `{StirEngine}.

(** What [get_stir_proj_data_info] hands to the engine, whenever the
    scanner geometry it first builds is accepted. *)
Lemma get_stir_proj_data_info_counts (self : Compression) (w w' : World)
    (i : ProjDataInfo) :
  get_stir_proj_data_info self w = (w', Return i) ->
  pdi_num_views i = num_of_views self /\
  pdi_num_tangential_poss i = get_num_tangential self /\
  pdi_max_delta i = get_max_ring_diff self.
Proof.
  unfold get_stir_proj_data_info, bind, ret.
  destruct (get_stir_scanner (scanner self) w) as [w1 [s | e |]];
    intros Heq; inversion Heq; subst; auto.
Qed.

(** C5: a new [Compression] has view count and tangential-bin count
    [num_dets_per_ring // 2] (56 for 112 detectors); a configured count is
    used as it is; with the tangential-bin count [None],
    [get_num_tangential] is the scanner's [default_non_arc_cor_bins] when
    [data_arc_corrected], else its [max_num_non_arc_cor_bins]. *)
Theorem views_and_tangential_bins (sc : Scanner) (self : Compression) :
  (num_of_views (Compression_init sc) = Some (num_dets_per_ring sc / 2) /\
   get_num_tangential (Compression_init sc) = Some (num_dets_per_ring sc / 2)) /\
  (num_dets_per_ring sc = 112 ->
   num_of_views (Compression_init sc) = Some 56 /\
   get_num_tangential (Compression_init sc) = Some 56) /\
  (forall n, num_non_arccor_bins self = Some n ->
             get_num_tangential self = Some n) /\
  (forall w w' i, get_stir_proj_data_info self w = (w', Return i) ->
                  pdi_num_views i = num_of_views self /\
                  pdi_num_tangential_poss i = get_num_tangential self) /\
  (num_non_arccor_bins self = None -> data_arc_corrected self = true ->
   get_num_tangential self = default_non_arc_cor_bins (scanner self)) /\
  (num_non_arccor_bins self = None -> data_arc_corrected self = false ->
   get_num_tangential self = max_num_non_arc_cor_bins (scanner self)).
Proof.
  unfold get_num_tangential, get_default_num_tangential.
  conjuncts.
  - reflexivity.
  - reflexivity.
  - simpl. intros ->. split; reflexivity.
  - intros n ->. reflexivity.
  - intros w w' i Hrun.
    destruct (get_stir_proj_data_info_counts self w w' i Hrun) as (Hv & Ht & _).
    split; assumption.
  - intros -> ->. reflexivity.
  - intros -> ->. reflexivity.
Qed.

End compression_facts.

Example get_stir_proj_data_info_mCT :
  get_stir_proj_data_info (Compression_init mCT) empty_world =
  (log (Ev_get_scanner_from_name "") empty_world, Return mCT_proj_data_info).
Proof. reflexivity. Qed.

Lemma views_and_tangential_bins_witness :
  (num_of_views (Compression_init mCT) = Some 56 /\
   get_num_tangential (Compression_init mCT) = Some 56) /\
  get_num_tangential (Compression_init mCT) = Some (112 / 2) /\
  (pdi_num_views mCT_proj_data_info = num_of_views (Compression_init mCT) /\
   pdi_num_tangential_poss mCT_proj_data_info =
     get_num_tangential (Compression_init mCT)) /\
  get_num_tangential mCT_three_segments = default_non_arc_cor_bins mCT /\
  get_num_tangential
    {| scanner := mCT; span_num := 1; max_num_segments := None;
       num_of_views := None; num_non_arccor_bins := None;
       data_arc_corrected := false |} = max_num_non_arc_cor_bins mCT.
Proof.
  destruct (views_and_tangential_bins mCT (Compression_init mCT))
    as ((_ & Hinit) & H112 & _ & Hinfo & _ & _).
  destruct (views_and_tangential_bins mCT mCT_three_segments)
    as (_ & _ & _ & _ & Harc & _).
  destruct (views_and_tangential_bins mCT
              {| scanner := mCT; span_num := 1; max_num_segments := None;
                 num_of_views := None; num_non_arccor_bins := None;
                 data_arc_corrected := false |})
    as (_ & _ & _ & _ & _ & Hnon).
  split; [| split; [| split; [| split]]].
  - apply H112. reflexivity.
  - exact Hinit.
  - apply (Hinfo empty_world (log (Ev_get_scanner_from_name "") empty_world)).
    reflexivity.
  - apply Harc; reflexivity.
  - apply Hnon; reflexivity.
Defined.

(** ** scanner.py *)

Section scanner_facts.
Context `{StirEngine}.

(** C8: a name outside [SCANNER_NAMES] makes [_get_scanner_by_name], and
    so [get_scanner_by_name], raise the "No default scanner" [ValueError]
    with the engine state untouched: no scanner object was asked of the
    engine. *)
Theorem unknown_scanner_name_rejected (name : string) (w : World) :
  name ∉ SCANNER_NAMES ->
  _get_scanner_by_name name w =
    (w, Raise (ValueError ("No default scanner of name " ++ name))) /\
  get_scanner_by_name name w =
    (w, Raise (ValueError ("No default scanner of name " ++ name))).
Proof.
  intros Hname.
  assert (Hlow : _get_scanner_by_name name w =
                 (w, Raise (ValueError ("No default scanner of name " ++ name)))).
  { unfold _get_scanner_by_name. rewrite bool_decide_true by assumption.
    reflexivity. }
  split; [assumption |].
  unfold get_scanner_by_name, bind. rewrite Hlow. reflexivity.
Qed.

(** A registered name does reach the engine, once. *)
Lemma known_scanner_name_looked_up (name : string) (w : World) :
  name ∈ SCANNER_NAMES ->
  get_scanner_by_name name w =
    (log (Ev_get_scanner_from_name name) w,
     Return (_scanner_from_stir (Scanner_get_scanner_from_name name))).
Proof.
  intros Hname.
  unfold get_scanner_by_name, _get_scanner_by_name.
  rewrite bool_decide_false by (intros Hn; apply Hn, Hname).
  reflexivity.
Qed.

(** The scanner object [stir_get_STIR_geometry] submits to the
    consistency check, and what becomes of it. *)
Lemma stir_get_STIR_geometry_run
    (_num_rings _num_dets_per_ring : Z)
    (_det_radius _ring_spacing _average_depth_of_inter _voxel_size_xy : pynum)
    (_axial_crystals_per_block _trans_crystals_per_block
     _axials_blocks_per_bucket _trans_blocks_per_bucket
     _axial_crystals_per_singles_unit _trans_crystals_per_singles_unit
     _num_detector_layers : option Z)
    (_intrinsic_tilt : option pynum)
    (max_num_non_arc_cor_bins _default_non_arc_cor_bins : option Z)
    (w : World) :
  let max_bins := default (int_truediv_2 _num_dets_per_ring) max_num_non_arc_cor_bins in
  let s :=
    mkStirScanner
      (np_int32 _num_rings) (np_int32 _num_dets_per_ring)
      (np_float32 _voxel_size_xy)
      (np_int32 (default max_bins _default_non_arc_cor_bins))
      (np_float32 (default (PyInt 0) _intrinsic_tilt))
      (np_float32 _det_radius) (np_float32 _ring_spacing)
      (np_float32 _average_depth_of_inter)
      (np_int32 max_bins)
      (np_int32 (default 1 _axials_blocks_per_bucket))
      (np_int32 (default 1 _trans_blocks_per_bucket))
      (np_int32 (default 1 _axial_crystals_per_block))
      (np_int32 (default 1 _trans_crystals_per_block))
      (np_int32 (default 1 _axial_crystals_per_singles_unit))
      (np_int32 (default 1 _trans_crystals_per_singles_unit))
      (np_int32 (default 1 _num_detector_layers)) in
  stir_get_STIR_geometry _num_rings _num_dets_per_ring _det_radius
    _ring_spacing _average_depth_of_inter _voxel_size_xy
    _axial_crystals_per_block _trans_crystals_per_block
    _axials_blocks_per_bucket _trans_blocks_per_bucket
    _axial_crystals_per_singles_unit _trans_crystals_per_singles_unit
    _num_detector_layers _intrinsic_tilt
    max_num_non_arc_cor_bins _default_non_arc_cor_bins w =
  (log (Ev_get_scanner_from_name "") w,
   if check_consistency_yes s then Return s
   else Raise (TypeError "Something is wrong in the scanner geometry.")).
Proof.
  intros max_bins s. subst s max_bins.
  unfold stir_get_STIR_geometry, _check_consistency, bind, get_scanner_from_name.
  destruct (Scanner_get_scanner_from_name "").
  cbn [set_num_rings set_num_detectors_per_ring set_default_bin_size
       set_default_num_arccorrected_bins set_default_intrinsic_tilt
       set_inner_ring_radius set_ring_spacing set_average_depth_of_interaction
       set_max_num_non_arccorrected_bins set_num_axial_blocks_per_bucket
       set_num_transaxial_blocks_per_bucket set_num_axial_crystals_per_block
       set_num_transaxial_crystals_per_block
       set_num_axial_crystals_per_singles_unit
       set_num_transaxial_crystals_per_singles_unit set_num_detector_layers].
  destruct max_num_non_arc_cor_bins, _default_non_arc_cor_bins; cbn [default];
    destruct (check_consistency_yes _); reflexivity.
Qed.

(** C6: [stir_get_STIR_geometry] configures one scanner object with every
    requested value and hands it to the consistency check; it returns that
    object when the check says yes and raises the "Something is wrong"
    [TypeError] when it does not, so nothing but a fully configured,
    consistent scanner is ever returned. *)
Theorem geometry_construction_atomic
    (_num_rings _num_dets_per_ring : Z)
    (_det_radius _ring_spacing _average_depth_of_inter _voxel_size_xy : pynum)
    (_axial_crystals_per_block _trans_crystals_per_block
     _axials_blocks_per_bucket _trans_blocks_per_bucket
     _axial_crystals_per_singles_unit _trans_crystals_per_singles_unit
     _num_detector_layers : option Z)
    (_intrinsic_tilt : option pynum)
    (max_num_non_arc_cor_bins _default_non_arc_cor_bins : option Z)
    (w : World) :
  let max_bins := default (int_truediv_2 _num_dets_per_ring) max_num_non_arc_cor_bins in
  exists s : StirScanner,
    stir_get_STIR_geometry _num_rings _num_dets_per_ring _det_radius
      _ring_spacing _average_depth_of_inter _voxel_size_xy
      _axial_crystals_per_block _trans_crystals_per_block
      _axials_blocks_per_bucket _trans_blocks_per_bucket
      _axial_crystals_per_singles_unit _trans_crystals_per_singles_unit
      _num_detector_layers _intrinsic_tilt
      max_num_non_arc_cor_bins _default_non_arc_cor_bins w =
    (log (Ev_get_scanner_from_name "") w,
     if check_consistency_yes s then Return s
     else Raise (TypeError "Something is wrong in the scanner geometry.")) /\
    get_num_rings s = np_int32 _num_rings /\
    get_num_detectors_per_ring s = np_int32 _num_dets_per_ring /\
    get_default_bin_size s = np_float32 _voxel_size_xy /\
    get_default_num_arccorrected_bins s =
      np_int32 (default max_bins _default_non_arc_cor_bins) /\
    get_default_intrinsic_tilt s = np_float32 (default (PyInt 0) _intrinsic_tilt) /\
    get_inner_ring_radius s = np_float32 _det_radius /\
    get_ring_spacing s = np_float32 _ring_spacing /\
    get_average_depth_of_interaction s = np_float32 _average_depth_of_inter /\
    get_max_num_non_arccorrected_bins s = np_int32 max_bins /\
    get_num_axial_blocks_per_bucket s = np_int32 (default 1 _axials_blocks_per_bucket) /\
    get_num_transaxial_blocks_per_bucket s = np_int32 (default 1 _trans_blocks_per_bucket) /\
    get_num_axial_crystals_per_block s = np_int32 (default 1 _axial_crystals_per_block) /\
    get_num_transaxial_crystals_per_block s = np_int32 (default 1 _trans_crystals_per_block) /\
    get_num_axial_crystals_per_singles_unit s =
      np_int32 (default 1 _axial_crystals_per_singles_unit) /\
    get_num_transaxial_crystals_per_singles_unit s =
      np_int32 (default 1 _trans_crystals_per_singles_unit) /\
    get_num_detector_layers s = np_int32 (default 1 _num_detector_layers).
Proof.
  intros max_bins.
  eexists. split.
  - apply stir_get_STIR_geometry_run.
  - cbn. conjuncts; reflexivity.
Qed.

(** C7: a call that leaves an optional argument out configures the scanner
    with its default: 1 for each block, bucket, crystal and layer count, 0
    for the intrinsic tilt, [num_dets_per_ring / 2] rounded down for
    [max_num_non_arc_cor_bins] (for a detector count that is a non-negative
    int32), and the resolved [max_num_non_arc_cor_bins] for
    [default_non_arc_cor_bins]. *)
Theorem geometry_defaults
    (_num_rings _num_dets_per_ring : Z)
    (_det_radius _ring_spacing _average_depth_of_inter _voxel_size_xy : pynum)
    (_axial_crystals_per_block _trans_crystals_per_block
     _axials_blocks_per_bucket _trans_blocks_per_bucket
     _axial_crystals_per_singles_unit _trans_crystals_per_singles_unit
     _num_detector_layers : option Z)
    (_intrinsic_tilt : option pynum)
    (max_num_non_arc_cor_bins _default_non_arc_cor_bins : option Z)
    (w : World) :
  exists s : StirScanner,
    stir_get_STIR_geometry _num_rings _num_dets_per_ring _det_radius
      _ring_spacing _average_depth_of_inter _voxel_size_xy
      _axial_crystals_per_block _trans_crystals_per_block
      _axials_blocks_per_bucket _trans_blocks_per_bucket
      _axial_crystals_per_singles_unit _trans_crystals_per_singles_unit
      _num_detector_layers _intrinsic_tilt
      max_num_non_arc_cor_bins _default_non_arc_cor_bins w =
    (log (Ev_get_scanner_from_name "") w,
     if check_consistency_yes s then Return s
     else Raise (TypeError "Something is wrong in the scanner geometry.")) /\
    (_axial_crystals_per_block = None -> get_num_axial_crystals_per_block s = 1) /\
    (_trans_crystals_per_block = None ->
     get_num_transaxial_crystals_per_block s = 1) /\
    (_axials_blocks_per_bucket = None -> get_num_axial_blocks_per_bucket s = 1) /\
    (_trans_blocks_per_bucket = None ->
     get_num_transaxial_blocks_per_bucket s = 1) /\
    (_axial_crystals_per_singles_unit = None ->
     get_num_axial_crystals_per_singles_unit s = 1) /\
    (_trans_crystals_per_singles_unit = None ->
     get_num_transaxial_crystals_per_singles_unit s = 1) /\
    (_num_detector_layers = None -> get_num_detector_layers s = 1) /\
    (_intrinsic_tilt = None -> get_default_intrinsic_tilt s = S754_zero false) /\
    (max_num_non_arc_cor_bins = None -> 0 <= _num_dets_per_ring < 2 ^ 31 ->
     get_max_num_non_arccorrected_bins s = _num_dets_per_ring / 2) /\
    (_default_non_arc_cor_bins = None ->
     get_default_num_arccorrected_bins s = get_max_num_non_arccorrected_bins s).
Proof.
  eexists. split.
  - apply stir_get_STIR_geometry_run.
  - cbn [get_num_axial_crystals_per_block get_num_transaxial_crystals_per_block
         get_num_axial_blocks_per_bucket get_num_transaxial_blocks_per_bucket
         get_num_axial_crystals_per_singles_unit
         get_num_transaxial_crystals_per_singles_unit get_num_detector_layers
         get_default_intrinsic_tilt get_max_num_non_arccorrected_bins
         get_default_num_arccorrected_bins].
    conjuncts; try (intros ->; reflexivity).
    intros -> Hn. cbn [default].
    rewrite int_truediv_2_floor by lia.
    apply np_int32_small.
    assert (0 <= _num_dets_per_ring / 2) by (apply Z.div_pos; lia).
    assert (_num_dets_per_ring / 2 <= _num_dets_per_ring)
      by (apply Z.div_le_upper_bound; lia).
    lia.
Qed.

End scanner_facts.

Lemma unknown_scanner_name_rejected_witness :
  ("Discovery 690" ∉ @SCANNER_NAMES sample_engine) /\
  get_scanner_by_name "Discovery 690" empty_world =
    (empty_world, Raise (ValueError "No default scanner of name Discovery 690")).
Proof.
  assert (Hnot : "Discovery 690" ∉ @SCANNER_NAMES sample_engine).
  { apply (bool_decide_unpack _). vm_compute. exact I. }
  split; [exact Hnot |].
  apply (unknown_scanner_name_rejected "Discovery 690" empty_world Hnot).
Defined.

Lemma geometry_defaults_witness :
  0 <= 112 < 2 ^ 31 /\
  exists s : StirScanner,
    stir_get_STIR_geometry 8 112 (py_float 115 (-1)) (py_float 25 (-2))
      (py_float 7 0) (py_float 7430939385161318 (-52))
      None None None None None None None None None None empty_world =
    (log (Ev_get_scanner_from_name "") empty_world, Return s) /\
    get_num_axial_crystals_per_block s = 1 /\
    get_num_transaxial_crystals_per_block s = 1 /\
    get_num_axial_blocks_per_bucket s = 1 /\
    get_num_transaxial_blocks_per_bucket s = 1 /\
    get_num_axial_crystals_per_singles_unit s = 1 /\
    get_num_transaxial_crystals_per_singles_unit s = 1 /\
    get_num_detector_layers s = 1 /\
    get_default_intrinsic_tilt s = S754_zero false /\
    get_max_num_non_arccorrected_bins s = 56 /\
    get_default_num_arccorrected_bins s = get_max_num_non_arccorrected_bins s.
Proof.
  assert (Hrange : 0 <= 112 < 2 ^ 31) by lia.
  split; [exact Hrange |].
  destruct (geometry_defaults 8 112 (py_float 115 (-1)) (py_float 25 (-2))
              (py_float 7 0) (py_float 7430939385161318 (-52))
              None None None None None None None None None None empty_world)
    as (s & Hrun & H1 & H2 & H3 & H4 & H5 & H6 & H7 & H8 & H9 & H10).
  exists s.
  assert (Hyes : check_consistency_yes s = true).
  { destruct (check_consistency_yes s); [reflexivity |].
    vm_compute in Hrun. discriminate Hrun. }
  rewrite Hyes in Hrun.
  split; [exact Hrun |].
  conjuncts; auto.
Defined.

(** ** bindings.py *)

(** *** Lists used as object stores *)

Lemma alter_last {A} (f : A -> A) (l : list A) (x : A) :
  alter f (length l) (l ++ [x]) = l ++ [f x].
Proof.
  rewrite alter_app_r_alt by lia. now rewrite Nat.sub_diag.
Qed.

Lemma alter_first_new {A} (f : A -> A) (l : list A) (x : A) (rest : list A) :
  alter f (length l) (l ++ x :: rest) = l ++ f x :: rest.
Proof.
  rewrite alter_app_r_alt by lia. now rewrite Nat.sub_diag.
Qed.

Lemma alter_second_new {A} (f : A -> A) (l : list A) (x y : A) (rest : list A) :
  alter f (S (length l)) (l ++ x :: y :: rest) = l ++ x :: f y :: rest.
Proof.
  rewrite alter_app_r_alt by lia.
  now replace (S (length l) - length l)%nat with 1%nat by lia.
Qed.

Lemma length_snoc {A} (l : list A) (x : A) : length (l ++ [x]) = S (length l).
Proof. rewrite length_app. simpl. lia. Qed.


Lemma lookup_snoc {A} (l : list A) (x : A) : (l ++ [x]) !! length l = Some x.
Proof. now apply list_lookup_middle. Qed.

Lemma lookup_first_of_two {A} (l : list A) (x y : A) :
  (l ++ [x; y]) !! length l = Some x.
Proof. now apply list_lookup_middle. Qed.

Lemma lookup_second_of_two {A} (l : list A) (x y : A) :
  (l ++ [x; y]) !! S (length l) = Some y.
Proof.
  change (l ++ [x; y]) with (l ++ [x] ++ [y]). rewrite app_assoc.
  apply list_lookup_middle. now rewrite length_snoc.
Qed.

Lemma lookup_first_of_three {A} (l : list A) (x y z : A) :
  (l ++ [x; y; z]) !! length l = Some x.
Proof. now apply list_lookup_middle. Qed.

Lemma lookup_second_of_three {A} (l : list A) (x y z : A) :
  (l ++ [x; y; z]) !! S (length l) = Some y.
Proof.
  change (l ++ [x; y; z]) with (l ++ [x] ++ [y; z]). rewrite app_assoc.
  apply list_lookup_middle. now rewrite length_snoc.
Qed.

Lemma lookup_third_of_three {A} (l : list A) (x y z : A) :
  (l ++ [x; y; z]) !! S (S (length l)) = Some z.
Proof.
  change (l ++ [x; y; z]) with (l ++ [x; y] ++ [z]). rewrite app_assoc.
  apply list_lookup_middle. rewrite length_app. simpl. lia.
Qed.

Lemma shape_check_passes (a b : list Z) : a = b -> bool_decide (a ≠ b) = false.
Proof. intros ->. apply bool_decide_false. intros Hne. now apply Hne. Qed.

Lemma shape_check_fails (a b : list Z) : a ≠ b -> bool_decide (a ≠ b) = true.
Proof. intros Hne. now apply bool_decide_true. Qed.

(** *** Running the constructors *)

Ltac run_init :=
  cbv beta iota zeta delta
    [ForwardProjectorByBinWrapper_init BackProjectorByBinWrapper_init
     ForwardProjectorByBinWrapper_init_on_operator
     bind ret raise out_of_fuel
     new_ProjMatrixByBinUsingRayTracing on_matrix
     new_ForwardProjectorByBinUsingProjMatrixByBin
     new_BackProjectorByBinUsingProjMatrixByBin
     forward_projector_set_up back_projector_set_up
     new_operator assign_adjoint
     Verbosity volume_data proj_data_data proj_matrices forward_projectors
     back_projectors operators trace fst snd].

Ltac tidy_stores :=
  rewrite ?alter_last, ?length_snoc;
  rewrite <- ?app_assoc; cbn [app];
  rewrite ?alter_second_new, ?alter_first_new;
  cbn [app set_adjoint set_do_symmetry_90degrees_min_phi
       set_do_symmetry_180degrees_min_phi set_do_symmetry_swap_s
       set_do_symmetry_swap_segment set_num_tangential_LORs matrix_set_up
       projector_do_set_up fresh_proj_matrix proj_matrix_of
       fw_verbosity fw_domain fw_range fw_proj_data fw_proj_data_info
       fw_volume fw_proj_matrix fw_projector fw_adjoint
       bw_verbosity bw_domain bw_range bw_proj_data bw_proj_data_info
       bw_volume bw_back_projector bw_adjoint
       fo_verbosity fo_domain fo_range fo_proj_data fo_proj_data_info
       fo_volume fo_projector fo_adjoint].

(** [ForwardProjectorByBinWrapper(domain, range, volume, proj_data)] with no
    projector and no adjoint, on matching shapes. *)
Lemma ForwardProjectorByBinWrapper_init_fresh (n : nat) (D R : DiscreteLp)
    (vol : FloatVoxelsOnCartesianGrid) (pd : ProjData)
    (info : option ProjDataInfo) (v : Z) (w : World) :
  shape D = vol_shape vol -> shape R = pd_shape pd ->
  let i := match info with None => get_proj_data_info pd | Some i => i end in
  let m := length (proj_matrices w) in
  let f := length (operators w) in
  ForwardProjectorByBinWrapper_init (S (S n)) D R vol pd info None None v w =
  (mkWorld (Verbosity w) (volume_data w) (proj_data_data w)
     (proj_matrices w ++ [forward_built_matrix i vol])
     (forward_projectors w ++
        [{| proj_matrix_of := m; projector_set_up := Some (i, vol) |}])
     (back_projectors w ++
        [{| proj_matrix_of := m; projector_set_up := Some (i, vol) |}])
     (operators w ++
        [Forward {| fw_verbosity := v; fw_domain := D; fw_range := R;
                    fw_proj_data := pd; fw_proj_data_info := i;
                    fw_volume := vol; fw_proj_matrix := Some m;
                    fw_projector := length (forward_projectors w);
                    fw_adjoint := Some (S f) |};
         Back {| bw_verbosity := 0; bw_domain := R; bw_range := D;
                 bw_proj_data := pd;
                 bw_proj_data_info := get_proj_data_info pd;
                 bw_volume := vol;
                 bw_back_projector := length (back_projectors w);
                 bw_adjoint := Some f |}])
     (trace w),
   Return f).
Proof.
  intros HD HR. destruct w as [lvl vd pdd ms fps bps ops tr].
  run_init.
  rewrite !(shape_check_passes _ _ HD), !(shape_check_passes _ _ HR).
  run_init. tidy_stores. reflexivity.
Qed.

(** The same with an engine projector supplied by the caller. *)
Lemma ForwardProjectorByBinWrapper_init_supplied (n : nat) (D R : DiscreteLp)
    (vol : FloatVoxelsOnCartesianGrid) (pd : ProjData)
    (info : option ProjDataInfo) (p : nat) (v : Z) (w : World) :
  shape D = vol_shape vol -> shape R = pd_shape pd ->
  let i := match info with None => get_proj_data_info pd | Some i => i end in
  let m := length (proj_matrices w) in
  let f := length (operators w) in
  ForwardProjectorByBinWrapper_init (S (S n)) D R vol pd info (Some p) None v w =
  (mkWorld (Verbosity w) (volume_data w) (proj_data_data w)
     (proj_matrices w ++ [fresh_proj_matrix])
     (forward_projectors w)
     (back_projectors w ++
        [{| proj_matrix_of := m;
            projector_set_up := Some (get_proj_data_info pd, vol) |}])
     (operators w ++
        [Forward {| fw_verbosity := v; fw_domain := D; fw_range := R;
                    fw_proj_data := pd; fw_proj_data_info := i;
                    fw_volume := vol; fw_proj_matrix := None;
                    fw_projector := p;
                    fw_adjoint := Some (S f) |};
         Back {| bw_verbosity := 0; bw_domain := R; bw_range := D;
                 bw_proj_data := pd;
                 bw_proj_data_info := get_proj_data_info pd;
                 bw_volume := vol;
                 bw_back_projector := length (back_projectors w);
                 bw_adjoint := Some f |}])
     (trace w),
   Return f).
Proof.
  intros HD HR. destruct w as [lvl vd pdd ms fps bps ops tr].
  run_init.
  rewrite !(shape_check_passes _ _ HD), !(shape_check_passes _ _ HR).
  run_init. tidy_stores. reflexivity.
Qed.

(** [BackProjectorByBinWrapper(domain, range, volume, proj_data)] with no
    back-projector and no adjoint, on matching shapes.  The forward wrapper
    it builds receives the engine forward projector as [_proj_info] and the
    back operator as [projector], and, finding no adjoint, builds a second
    back operator on a matrix of its own. *)
Lemma BackProjectorByBinWrapper_init_fresh (n : nat) (D R : DiscreteLp)
    (vol : FloatVoxelsOnCartesianGrid) (pd : ProjData) (v : Z) (w : World) :
  shape R = vol_shape vol -> shape D = pd_shape pd ->
  let i := get_proj_data_info pd in
  let m := length (proj_matrices w) in
  let b := length (operators w) in
  BackProjectorByBinWrapper_init (S (S (S n))) D R vol pd None None v w =
  (mkWorld (Verbosity w) (volume_data w) (proj_data_data w)
     (proj_matrices w ++ [fresh_proj_matrix; fresh_proj_matrix])
     (forward_projectors w ++
        [{| proj_matrix_of := m; projector_set_up := Some (i, vol) |}])
     (back_projectors w ++
        [{| proj_matrix_of := m; projector_set_up := Some (i, vol) |};
         {| proj_matrix_of := S m; projector_set_up := Some (i, vol) |}])
     (operators w ++
        [Back {| bw_verbosity := v; bw_domain := D; bw_range := R;
                 bw_proj_data := pd; bw_proj_data_info := i;
                 bw_volume := vol;
                 bw_back_projector := length (back_projectors w);
                 bw_adjoint := Some (S b) |};
         ForwardOnOperator
           {| fo_verbosity := 0; fo_domain := R; fo_range := D;
              fo_proj_data := pd;
              fo_proj_data_info := inr (length (forward_projectors w));
              fo_volume := vol; fo_projector := b;
              fo_adjoint := Some (S (S b)) |};
         Back {| bw_verbosity := 0; bw_domain := D; bw_range := R;
                 bw_proj_data := pd; bw_proj_data_info := i;
                 bw_volume := vol;
                 bw_back_projector := S (length (back_projectors w));
                 bw_adjoint := Some (S b) |}])
     (trace w),
   Return b).
Proof.
  intros HR HD. destruct w as [lvl vd pdd ms fps bps ops tr].
  run_init.
  rewrite !(shape_check_passes _ _ HD), !(shape_check_passes _ _ HR).
  run_init. tidy_stores. reflexivity.
Qed.

(** The same with an engine back-projector supplied by the caller: the
    forward wrapper receives [None] as [_proj_info] and the back operator as
    [projector]; no engine forward projector is made. *)
Lemma BackProjectorByBinWrapper_init_supplied (n : nat) (D R : DiscreteLp)
    (vol : FloatVoxelsOnCartesianGrid) (pd : ProjData) (bp : nat) (v : Z)
    (w : World) :
  shape R = vol_shape vol -> shape D = pd_shape pd ->
  let i := get_proj_data_info pd in
  let m := length (proj_matrices w) in
  let b := length (operators w) in
  BackProjectorByBinWrapper_init (S (S (S n))) D R vol pd (Some bp) None v w =
  (mkWorld (Verbosity w) (volume_data w) (proj_data_data w)
     (proj_matrices w ++ [fresh_proj_matrix])
     (forward_projectors w)
     (back_projectors w ++
        [{| proj_matrix_of := m; projector_set_up := Some (i, vol) |}])
     (operators w ++
        [Back {| bw_verbosity := v; bw_domain := D; bw_range := R;
                 bw_proj_data := pd; bw_proj_data_info := i;
                 bw_volume := vol; bw_back_projector := bp;
                 bw_adjoint := Some (S b) |};
         ForwardOnOperator
           {| fo_verbosity := 0; fo_domain := R; fo_range := D;
              fo_proj_data := pd; fo_proj_data_info := inl i;
              fo_volume := vol; fo_projector := b;
              fo_adjoint := Some (S (S b)) |};
         Back {| bw_verbosity := 0; bw_domain := D; bw_range := R;
                 bw_proj_data := pd; bw_proj_data_info := i;
                 bw_volume := vol;
                 bw_back_projector := length (back_projectors w);
                 bw_adjoint := Some (S b) |}])
     (trace w),
   Return b).
Proof.
  intros HR HD. destruct w as [lvl vd pdd ms fps bps ops tr].
  run_init.
  rewrite !(shape_check_passes _ _ HD), !(shape_check_passes _ _ HR).
  run_init. tidy_stores. reflexivity.
Qed.

(** With no adjoint given, two levels of calls do not let the back
    constructor finish: the forward wrapper it builds calls it again. *)
Lemma BackProjectorByBinWrapper_init_two_levels (D R : DiscreteLp)
    (vol : FloatVoxelsOnCartesianGrid) (pd : ProjData)
    (back_projector : option nat) (v : Z) (w : World) :
  shape R = vol_shape vol -> shape D = pd_shape pd ->
  snd (BackProjectorByBinWrapper_init 2 D R vol pd back_projector None v w) =
  OutOfFuel.
Proof.
  intros HR HD. destruct w as [lvl vd pdd ms fps bps ops tr].
  run_init.
  rewrite !(shape_check_passes _ _ HD), !(shape_check_passes _ _ HR).
  destruct back_projector; reflexivity.
Qed.

(** *** Shape checks *)

Lemma ForwardProjectorByBinWrapper_init_volume_mismatch (n : nat)
    (D R : DiscreteLp) (vol : FloatVoxelsOnCartesianGrid) (pd : ProjData)
    (info : option ProjDataInfo) (projector adjoint : option nat) (v : Z)
    (w : World) :
  shape D ≠ vol_shape vol ->
  ForwardProjectorByBinWrapper_init (S n) D R vol pd info projector adjoint v w =
  (w, Raise (ValueError ("domain.shape " ++ str_tuple (shape D) ++
                         " does not equal volume shape " ++
                         str_tuple (vol_shape vol)))).
Proof.
  intros HD. cbn [ForwardProjectorByBinWrapper_init].
  rewrite (shape_check_fails _ _ HD). reflexivity.
Qed.

Lemma ForwardProjectorByBinWrapper_init_proj_mismatch (n : nat)
    (D R : DiscreteLp) (vol : FloatVoxelsOnCartesianGrid) (pd : ProjData)
    (info : option ProjDataInfo) (projector adjoint : option nat) (v : Z)
    (w : World) :
  shape D = vol_shape vol -> shape R ≠ pd_shape pd ->
  ForwardProjectorByBinWrapper_init (S n) D R vol pd info projector adjoint v w =
  (w, Raise (ValueError ("range.shape " ++ str_tuple (shape R) ++
                         " does not equal proj shape " ++
                         str_tuple (pd_shape pd)))).
Proof.
  intros HD HR. cbn [ForwardProjectorByBinWrapper_init].
  rewrite (shape_check_passes _ _ HD), (shape_check_fails _ _ HR). reflexivity.
Qed.

Lemma BackProjectorByBinWrapper_init_volume_mismatch (n : nat)
    (D R : DiscreteLp) (vol : FloatVoxelsOnCartesianGrid) (pd : ProjData)
    (back_projector adjoint : option nat) (v : Z) (w : World) :
  shape R ≠ vol_shape vol ->
  BackProjectorByBinWrapper_init (S n) D R vol pd back_projector adjoint v w =
  (w, Raise (ValueError ("`range.shape` " ++ str_tuple (shape R) ++
                         " does not equal volume shape " ++
                         str_tuple (vol_shape vol)))).
Proof.
  intros HR. cbn [BackProjectorByBinWrapper_init].
  rewrite (shape_check_fails _ _ HR). reflexivity.
Qed.

(** The message of the back operator's second check is formatted from
    [range.shape], which has just been found equal to the volume's shape;
    the offending [domain.shape] is not in it. *)
Lemma BackProjectorByBinWrapper_init_proj_mismatch (n : nat)
    (D R : DiscreteLp) (vol : FloatVoxelsOnCartesianGrid) (pd : ProjData)
    (back_projector adjoint : option nat) (v : Z) (w : World) :
  shape R = vol_shape vol -> shape D ≠ pd_shape pd ->
  BackProjectorByBinWrapper_init (S n) D R vol pd back_projector adjoint v w =
  (w, Raise (ValueError ("`domain.shape` " ++ str_tuple (vol_shape vol) ++
                         " does not equal proj shape " ++
                         str_tuple (pd_shape pd)))).
Proof.
  intros HR HD. cbn [BackProjectorByBinWrapper_init].
  rewrite (shape_check_passes _ _ HR), (shape_check_fails _ _ HD), HR.
  reflexivity.
Qed.

(** C2: a back operator whose [domain.shape] (5, 3, 5) differs from the
    projection data's (5, 3, 4) is refused before anything is built, but the
    [ValueError] prints [range.shape] (4, 4, 4) under the name
    [domain.shape]: the mismatched domain shape is not named. *)
Theorem back_domain_mismatch_message :
  BackProjectorByBinWrapper_init 2 {| shape := [5; 3; 5] |} cube4
    sample_volume sample_proj_data None None 0 empty_world =
  (empty_world,
   Raise (ValueError "`domain.shape` (4, 4, 4) does not equal proj shape (5, 3, 4)")).
Proof. reflexivity. Qed.

(** *** The pair a constructor leaves behind *)

Lemma prefix_snoc {A} (l k : list A) : l `prefix_of` l ++ k.
Proof. now exists k. Qed.

Lemma lookup_below_snoc {A} (l k : list A) (i : nat) :
  (i < length l)%nat -> (l ++ k) !! i = l !! i.
Proof. intros Hi. now apply lookup_app_l. Qed.

(** Read the operators, projectors and matrices off an explicit state. *)
Ltac observe_stores :=
  unfold is_forward, is_back, adjoint_of, adjoint_property_of, matrix_under;
  cbn [fst snd operators proj_matrices forward_projectors back_projectors];
  rewrite ?lookup_first_of_two, ?lookup_second_of_two,
    ?lookup_first_of_three, ?lookup_second_of_three, ?lookup_third_of_three,
    ?length_snoc, ?length_app;
  cbn [mbind option_bind adjoint _adjoint fw_adjoint bw_adjoint fo_adjoint
       fw_projector bw_back_projector length];
  rewrite ?lookup_snoc, ?lookup_first_of_two, ?lookup_second_of_two;
  cbn [fmap option_fmap option_map proj_matrix_of].

(** C1, as stated, fails when the caller supplies the engine projector: the
    back operator is built on a matrix of its own (object 1), not on the
    matrix of the forward operator's projector (object 0). *)
Lemma supplied_projector_matrix_not_shared :
  let run :=
    ForwardProjectorByBinWrapper_init 2 cube4 sino sample_volume
      sample_proj_data None (Some 0%nat) None 0 world_with_projector in
  snd run = Return 0%nat /\
  matrix_under (fst run) 0 = Some 0%nat /\
  matrix_under (fst run) 1 = Some 1%nat /\
  ~ shares_system_matrix (fst run) 0.
Proof.
  cbv zeta. conjuncts; try reflexivity.
  intros (b & m & Hadj & Hf & Hb).
  vm_compute in Hadj. injection Hadj as <-.
  vm_compute in Hf. vm_compute in Hb. congruence.
Qed.

(** C1 (amended): with [adjoint=None] and matching shapes the forward
    constructor returns; [forward.adjoint] is the back operator it builds,
    which holds the forward operator in its [_adjoint] attribute; exactly two
    operators, one matrix and one engine back-projector are created, the
    latter on the new matrix.  With [projector=None] one engine forward
    projector is created, on that same matrix, so the pair shares it; with a
    supplied projector no engine forward projector is created, the forward
    operator keeps the supplied one, and, that projector having been made
    from a matrix the engine already held, the pair does not share a
    matrix. *)
Theorem forward_constructor_completes_pair (n : nat) (D R : DiscreteLp)
    (vol : FloatVoxelsOnCartesianGrid) (pd : ProjData)
    (info : option ProjDataInfo) (projector : option nat) (v : Z) (w : World) :
  shape D = vol_shape vol -> shape R = pd_shape pd ->
  let f := length (operators w) in
  let b := S f in
  let m := length (proj_matrices w) in
  exists w' : World,
    ForwardProjectorByBinWrapper_init (S (S n)) D R vol pd info projector None v w =
      (w', Return f) /\
    is_forward w' f = true /\ is_back w' b = true /\
    adjoint_property_of w' f = Some b /\ adjoint_of w' b = Some f /\
    length (operators w') = S (S (length (operators w))) /\
    length (proj_matrices w') = S m /\
    length (back_projectors w') = S (length (back_projectors w)) /\
    matrix_under w' b = Some m /\
    (projector = None ->
     length (forward_projectors w') = S (length (forward_projectors w)) /\
     matrix_under w' f = Some m /\
     shares_system_matrix w' f) /\
    (forall p, projector = Some p ->
     forward_projectors w' = forward_projectors w /\
     matrix_under w' f = proj_matrix_of <$> forward_projectors w !! p /\
     (projector_on_existing_matrix w p -> ~ shares_system_matrix w' f)).
Proof.
  intros HD HR f b m. subst f b m.
  destruct projector as [p |];
    [ rewrite (ForwardProjectorByBinWrapper_init_supplied n D R vol pd info p v w HD HR)
    | rewrite (ForwardProjectorByBinWrapper_init_fresh n D R vol pd info v w HD HR) ];
    (eexists; split; [reflexivity |]); observe_stores.
  - conjuncts; try reflexivity; try lia.
    + intros Hnone. discriminate Hnone.
    + intros q Hq. injection Hq as ->. conjuncts; try reflexivity.
      intros Hp (b & m & Hadj & Hf & Hb).
      revert Hadj. observe_stores. intros [= <-].
      revert Hf Hb. observe_stores. intros Hf [= <-].
      destruct (forward_projectors w !! q) as [pr |] eqn:Hpr; [| discriminate Hf].
      injection Hf as Hm. specialize (Hp pr Hpr). lia.
  - conjuncts; try reflexivity; try lia.
    + intros _. conjuncts; try reflexivity; try lia.
      exists (S (length (operators w))), (length (proj_matrices w)).
      observe_stores. conjuncts; reflexivity.
    + intros q Hq. discriminate Hq.
Qed.

Lemma forward_constructor_completes_pair_witness :
  shape cube4 = vol_shape sample_volume /\
  shape sino = pd_shape sample_proj_data /\
  projector_on_existing_matrix world_with_projector 0 /\
  (exists w' : World,
     ForwardProjectorByBinWrapper_init 2 cube4 sino sample_volume
       sample_proj_data None None None 3 empty_world = (w', Return 0%nat) /\
     adjoint_property_of w' 0 = Some 1%nat /\ adjoint_of w' 1 = Some 0%nat /\
     length (proj_matrices w') = 1%nat /\
     shares_system_matrix w' 0) /\
  (exists w' : World,
     ForwardProjectorByBinWrapper_init 2 cube4 sino sample_volume
       sample_proj_data None (Some 0%nat) None 3 world_with_projector =
       (w', Return 0%nat) /\
     adjoint_property_of w' 0 = Some 1%nat /\
     length (proj_matrices w') = 2%nat /\
     ~ shares_system_matrix w' 0).
Proof.
  assert (Hp : projector_on_existing_matrix world_with_projector 0).
  { intros pr [= <-]. cbn. lia. }
  split; [reflexivity | split; [reflexivity | split; [exact Hp | split]]].
  - destruct (forward_constructor_completes_pair 0 cube4 sino sample_volume
                sample_proj_data None None 3 empty_world eq_refl eq_refl)
      as (w' & Hrun & _ & _ & Hfb & Hbf & _ & Hm & _ & _ & Hnone & _).
    exists w'. conjuncts; try assumption.
    apply Hnone. reflexivity.
  - destruct (forward_constructor_completes_pair 0 cube4 sino sample_volume
                sample_proj_data None (Some 0%nat) 3 world_with_projector
                eq_refl eq_refl)
      as (w' & Hrun & _ & _ & Hfb & _ & _ & Hm & _ & _ & _ & Hsome).
    exists w'. conjuncts; try assumption.
    exact (proj2 (proj2 (Hsome 0%nat eq_refl)) Hp).
Defined.

(** C9: built directly (no back-projector, no adjoint), the back operator
    runs on a matrix that was given no symmetry flag, no number of tangential
    LORs and no [set_up], and so is every matrix that construction creates;
    built from the forward side, the pair runs on one matrix with the four
    symmetries set to [True], one tangential LOR and [set_up] done.  The two
    pairs differ. *)
Theorem back_first_pair_not_equivalent (n : nat) (D R : DiscreteLp)
    (vol : FloatVoxelsOnCartesianGrid) (pd : ProjData) (v : Z) (w : World) :
  shape D = vol_shape vol -> shape R = pd_shape pd ->
  let m := length (proj_matrices w) in
  let o := length (operators w) in
  let back_first :=
    BackProjectorByBinWrapper_init (S (S (S n))) R D vol pd None None v w in
  let forward_first :=
    ForwardProjectorByBinWrapper_init (S (S (S n))) D R vol pd None None None v w in
  (snd back_first = Return o /\ snd forward_first = Return o) /\
  (is_back (fst back_first) o = true /\
   matrix_under (fst back_first) o = Some m /\
   proj_matrices (fst back_first) !! m =
     Some (mkProjMatrix None None None None None None) /\
   Forall (eq (mkProjMatrix None None None None None None))
     (drop m (proj_matrices (fst back_first)))) /\
  (is_back (fst forward_first) (S o) = true /\
   matrix_under (fst forward_first) o = Some m /\
   matrix_under (fst forward_first) (S o) = Some m /\
   proj_matrices (fst forward_first) !! m =
     Some (mkProjMatrix (Some true) (Some true) (Some true) (Some true)
                        (Some 1) (Some (get_proj_data_info pd, vol)))) /\
  proj_matrices (fst back_first) !! m ≠ proj_matrices (fst forward_first) !! m.
Proof.
  intros HD HR m o back_first forward_first.
  subst back_first forward_first m o.
  rewrite (BackProjectorByBinWrapper_init_fresh n R D vol pd v w HD HR).
  rewrite (ForwardProjectorByBinWrapper_init_fresh (S n) D R vol pd None v w HD HR).
  observe_stores.
  rewrite drop_app_length.
  conjuncts; try reflexivity.
  - repeat constructor.
  - intros Heq. discriminate Heq.
Qed.

Lemma back_first_pair_not_equivalent_witness :
  shape cube4 = vol_shape sample_volume /\
  shape sino = pd_shape sample_proj_data /\
  proj_matrices
    (fst (BackProjectorByBinWrapper_init 3 sino cube4 sample_volume
            sample_proj_data None None 0 empty_world)) !! 0%nat ≠
  proj_matrices
    (fst (ForwardProjectorByBinWrapper_init 3 cube4 sino sample_volume
            sample_proj_data None None None 0 empty_world)) !! 0%nat.
Proof.
  split; [reflexivity | split; [reflexivity |]].
  apply (back_first_pair_not_equivalent 0 cube4 sino sample_volume
           sample_proj_data 0 empty_world eq_refl eq_refl).
Defined.

(** *** Applying the operators *)

(** [with StirVerbosity(level)] around any body: the body runs under [level],
    its outcome is the outcome of the block, and the level found on entry is
    back in force afterwards. *)
Lemma with_StirVerbosity_scoped {A} (level : Z) (body : M A) (w : World) :
  let entered :=
    fst (Verbosity_set level (log (Ev_Verbosity_get (Verbosity w)) w)) in
  Verbosity entered = level /\
  snd (with_StirVerbosity level body w) = snd (body entered) /\
  Verbosity (fst (with_StirVerbosity level body w)) = Verbosity w /\
  trace (fst (with_StirVerbosity level body w)) =
    trace (fst (body entered)) ++ [Ev_Verbosity_set (Verbosity w)].
Proof.
  destruct w as [lvl vd pdd ms fps bps ops tr].
  cbv beta iota zeta delta
    [with_StirVerbosity StirVerbosity_enter StirVerbosity_init
     StirVerbosity_exit try_finally bind ret Verbosity_get Verbosity_set log
     sv_verbosity old_verbosity Verbosity volume_data proj_data_data
     proj_matrices forward_projectors back_projectors operators trace fst snd].
  destruct (body _) as [[lvl' vd' pdd' ms' fps' bps' ops' tr'] r].
  conjuncts; reflexivity.
Qed.

Lemma trace_six {A} (t : list A) (a b c d e f : A) :
  (((((t ++ [a]) ++ [b]) ++ [c]) ++ [d]) ++ [e]) ++ [f] = t ++ [a; b; c; d; e; f].
Proof. now rewrite <- !app_assoc. Qed.

Section bindings_facts.
Context `{StirEngine}.

Ltac run_call :=
  cbv beta iota zeta delta
    [ForwardProjectorByBinWrapper_call BackProjectorByBinWrapper_call
     with_StirVerbosity StirVerbosity_enter StirVerbosity_init
     StirVerbosity_exit try_finally call_with_stir_buffer call_projector
     bind ret fill to_numpy Verbosity_get Verbosity_set log store
     contents matrix_of_projector volume_buffer proj_data_buffer
     sv_verbosity old_verbosity
     Verbosity volume_data proj_data_data proj_matrices forward_projectors
     back_projectors operators trace fst snd];
  rewrite ?insert_insert_eq, ?lookup_insert_eq;
  cbn [from_option id].

(** One forward application, start to finish.  [stale] is what the
    projection-data buffer held before the call. *)
Lemma ForwardProjectorByBinWrapper_call_run
    (self : ForwardProjectorByBinWrapper) (volume : list spec_float) (w : World) :
  let vol := vol_id (fw_volume self) in
  let pd := pd_id (fw_proj_data self) in
  let stale := contents (ProjDataBuf pd) w in
  let engine :=
    project forward_project
      (matrix_of_projector forward_project (fw_projector self) w)
      (fw_verbosity self) stale volume in
  ForwardProjectorByBinWrapper_call self volume w =
  (mkWorld (Verbosity w)
     (<[vol := volume]> (volume_data w))
     (<[pd := fst engine]> (proj_data_data w))
     (proj_matrices w) (forward_projectors w) (back_projectors w)
     (operators w)
     (trace w ++
        [Ev_fill (VolumeBuf vol) volume;
         Ev_Verbosity_get (Verbosity w);
         Ev_Verbosity_set (fw_verbosity self);
         Ev_fill (VolumeBuf vol) volume;
         Ev_project forward_project (fw_projector self) (fw_verbosity self)
                    stale volume;
         Ev_Verbosity_set (Verbosity w)]),
   match snd engine with
   | None => Return (fst engine)
   | Some msg => Raise (StirError msg)
   end).
Proof.
  destruct w as [lvl vd pdd ms fps bps ops tr].
  run_call.
  destruct (project _ _ _ _ _) as [out [msg |]]; run_call;
    rewrite trace_six; reflexivity.
Qed.

(** One back application, start to finish. *)
Lemma BackProjectorByBinWrapper_call_run
    (self : BackProjectorByBinWrapper) (projections : list spec_float)
    (w : World) :
  let vol := vol_id (bw_volume self) in
  let pd := pd_id (bw_proj_data self) in
  let engine :=
    project back_project
      (matrix_of_projector back_project (bw_back_projector self) w)
      (bw_verbosity self) (zero (bw_range self)) projections in
  BackProjectorByBinWrapper_call self projections w =
  (mkWorld (Verbosity w)
     (<[vol := fst engine]> (volume_data w))
     (<[pd := projections]> (proj_data_data w))
     (proj_matrices w) (forward_projectors w) (back_projectors w)
     (operators w)
     (trace w ++
        [Ev_Verbosity_get (Verbosity w);
         Ev_Verbosity_set (bw_verbosity self);
         Ev_fill (ProjDataBuf pd) projections;
         Ev_fill (VolumeBuf vol) (zero (bw_range self));
         Ev_project back_project (bw_back_projector self) (bw_verbosity self)
                    (zero (bw_range self)) projections;
         Ev_Verbosity_set (Verbosity w)]),
   match snd engine with
   | None => Return (fst engine)
   | Some msg => Raise (StirError msg)
   end).
Proof.
  destruct w as [lvl vd pdd ms fps bps ops tr].
  run_call.
  destruct (project _ _ _ _ _) as [out [msg |]]; run_call;
    rewrite trace_six; reflexivity.
Qed.

End bindings_facts.

Section application_facts.
Context `{StirEngine}.

(** C3: an application of either operator reads the engine's verbosity
    level, sets the operator's own level, makes the engine call under that
    level, and sets the level read at the start again; the level after the
    application is the level before it whether the engine call returned or
    raised. *)
Theorem verbosity_saved_set_restored
    (fw : ForwardProjectorByBinWrapper) (bw : BackProjectorByBinWrapper)
    (volume projections : list spec_float) (w : World) :
  let old := Verbosity w in
  let frun := ForwardProjectorByBinWrapper_call fw volume w in
  let brun := BackProjectorByBinWrapper_call bw projections w in
  (Verbosity (fst frun) = old /\
   exists dst src : list spec_float,
     let engine :=
       project forward_project
         (matrix_of_projector forward_project (fw_projector fw) w)
         (fw_verbosity fw) dst src in
     trace (fst frun) =
       trace w ++
         [Ev_fill (volume_buffer (fw_volume fw)) volume;
          Ev_Verbosity_get old;
          Ev_Verbosity_set (fw_verbosity fw);
          Ev_fill (volume_buffer (fw_volume fw)) volume;
          Ev_project forward_project (fw_projector fw) (fw_verbosity fw) dst src;
          Ev_Verbosity_set old] /\
     snd frun = match snd engine with
                | None => Return (fst engine)
                | Some msg => Raise (StirError msg)
                end) /\
  (Verbosity (fst brun) = old /\
   exists dst src : list spec_float,
     let engine :=
       project back_project
         (matrix_of_projector back_project (bw_back_projector bw) w)
         (bw_verbosity bw) dst src in
     trace (fst brun) =
       trace w ++
         [Ev_Verbosity_get old;
          Ev_Verbosity_set (bw_verbosity bw);
          Ev_fill (proj_data_buffer (bw_proj_data bw)) projections;
          Ev_fill (volume_buffer (bw_volume bw)) (zero (bw_range bw));
          Ev_project back_project (bw_back_projector bw) (bw_verbosity bw) dst src;
          Ev_Verbosity_set old] /\
     snd brun = match snd engine with
                | None => Return (fst engine)
                | Some msg => Raise (StirError msg)
                end).
Proof.
  intros old frun brun. subst old frun brun.
  rewrite ForwardProjectorByBinWrapper_call_run,
    BackProjectorByBinWrapper_call_run.
  cbn [fst snd Verbosity trace]. conjuncts.
  - reflexivity.
  - eexists _, _. split; reflexivity.
  - reflexivity.
  - eexists _, _. split; reflexivity.
Qed.

(** C10: in a forward application only the volume buffer is filled; the
    engine's [forward_project] finds in the projection-data buffer what it
    held before the application.  In a back application the volume buffer
    is filled with one zero per cell of the range before the engine's
    [back_project], which finds exactly those zeros. *)
Theorem output_buffer_before_engine_call
    (fw : ForwardProjectorByBinWrapper) (bw : BackProjectorByBinWrapper)
    (volume projections : list spec_float) (w : World) :
  let frun := ForwardProjectorByBinWrapper_call fw volume w in
  let brun := BackProjectorByBinWrapper_call bw projections w in
  let out_f := proj_data_buffer (fw_proj_data fw) in
  let out_b := volume_buffer (bw_volume bw) in
  (exists events : list Event,
     trace (fst frun) = trace w ++ events /\
     events =
       [Ev_fill (volume_buffer (fw_volume fw)) volume;
        Ev_Verbosity_get (Verbosity w);
        Ev_Verbosity_set (fw_verbosity fw);
        Ev_fill (volume_buffer (fw_volume fw)) volume;
        Ev_project forward_project (fw_projector fw) (fw_verbosity fw)
                   (contents out_f w) volume;
        Ev_Verbosity_set (Verbosity w)] /\
     Forall (fun e => forall data, e <> Ev_fill out_f data) events) /\
  (trace (fst brun) =
     trace w ++
       [Ev_Verbosity_get (Verbosity w);
        Ev_Verbosity_set (bw_verbosity bw);
        Ev_fill (proj_data_buffer (bw_proj_data bw)) projections;
        Ev_fill out_b (zero (bw_range bw));
        Ev_project back_project (bw_back_projector bw) (bw_verbosity bw)
                   (zero (bw_range bw)) projections;
        Ev_Verbosity_set (Verbosity w)] /\
   Forall (fun x => x = S754_zero false) (zero (bw_range bw)) /\
   Z.of_nat (length (zero (bw_range bw))) =
     Z.max 0 (foldr Z.mul 1 (shape (bw_range bw)))).
Proof.
  intros frun brun out_f out_b. subst frun brun out_f out_b.
  rewrite ForwardProjectorByBinWrapper_call_run,
    BackProjectorByBinWrapper_call_run.
  cbn [fst snd trace]. conjuncts.
  - eexists. conjuncts; [reflexivity | reflexivity |].
    unfold proj_data_buffer, volume_buffer.
    repeat constructor; intros data Heq; discriminate Heq.
  - reflexivity.
  - unfold zero. apply Forall_replicate. reflexivity.
  - unfold zero. rewrite length_replicate. lia.
Qed.

End application_facts.

(** With the sample engine: a forward application through a projector the
    engine does not have raises, and the verbosity level is back at 7. *)
Example forward_call_failure_restores_verbosity :
  let w := mkWorld 7 ∅ ∅ [] [] [] [] [] in
  let fw := {| fw_verbosity := 2; fw_domain := cube4; fw_range := sino;
               fw_proj_data := sample_proj_data;
               fw_proj_data_info := sample_info;
               fw_volume := sample_volume; fw_proj_matrix := None;
               fw_projector := 0; fw_adjoint := None |} in
  let run := ForwardProjectorByBinWrapper_call fw [S754_zero false] w in
  snd run = Raise (StirError "no such projector") /\
  Verbosity (fst run) = 7 /\
  trace (fst run) =
    [Ev_fill (VolumeBuf 0) [S754_zero false];
     Ev_Verbosity_get 7; Ev_Verbosity_set 2;
     Ev_fill (VolumeBuf 0) [S754_zero false];
     Ev_project forward_project 0 2 [] [S754_zero false];
     Ev_Verbosity_set 7].
Proof. cbv zeta. conjuncts; reflexivity. Qed.

(** * Further properties *)

(** ** bindings.py: the remaining ways through the constructors *)

(** Forward constructor, adjoint supplied, no projector: one nesting level
    is enough. *)
Lemma ForwardProjectorByBinWrapper_init_adjoint (n : nat) (D R : DiscreteLp)
    (vol : FloatVoxelsOnCartesianGrid) (pd : ProjData)
    (info : option ProjDataInfo) (a : nat) (v : Z) (w : World) :
  shape D = vol_shape vol -> shape R = pd_shape pd ->
  let i := match info with None => get_proj_data_info pd | Some i => i end in
  let m := length (proj_matrices w) in
  ForwardProjectorByBinWrapper_init (S n) D R vol pd info None (Some a) v w =
  (mkWorld (Verbosity w) (volume_data w) (proj_data_data w)
     (proj_matrices w ++ [forward_built_matrix i vol])
     (forward_projectors w ++
        [{| proj_matrix_of := m; projector_set_up := Some (i, vol) |}])
     (back_projectors w)
     (operators w ++
        [Forward {| fw_verbosity := v; fw_domain := D; fw_range := R;
                    fw_proj_data := pd; fw_proj_data_info := i;
                    fw_volume := vol; fw_proj_matrix := Some m;
                    fw_projector := length (forward_projectors w);
                    fw_adjoint := Some a |}])
     (trace w),
   Return (length (operators w))).
Proof.
  intros HD HR. destruct w as [lvl vd pdd ms fps bps ops tr].
  cbn [ForwardProjectorByBinWrapper_init].
  rewrite !(shape_check_passes _ _ HD), !(shape_check_passes _ _ HR).
  run_init. tidy_stores. reflexivity.
Qed.

(** Forward constructor, projector and adjoint both supplied. *)
Lemma ForwardProjectorByBinWrapper_init_wrap (n : nat) (D R : DiscreteLp)
    (vol : FloatVoxelsOnCartesianGrid) (pd : ProjData)
    (info : option ProjDataInfo) (p a : nat) (v : Z) (w : World) :
  shape D = vol_shape vol -> shape R = pd_shape pd ->
  let i := match info with None => get_proj_data_info pd | Some i => i end in
  ForwardProjectorByBinWrapper_init (S n) D R vol pd info (Some p) (Some a) v w =
  (mkWorld (Verbosity w) (volume_data w) (proj_data_data w)
     (proj_matrices w) (forward_projectors w) (back_projectors w)
     (operators w ++
        [Forward {| fw_verbosity := v; fw_domain := D; fw_range := R;
                    fw_proj_data := pd; fw_proj_data_info := i;
                    fw_volume := vol; fw_proj_matrix := None;
                    fw_projector := p; fw_adjoint := Some a |}])
     (trace w),
   Return (length (operators w))).
Proof.
  intros HD HR. destruct w as [lvl vd pdd ms fps bps ops tr].
  cbn [ForwardProjectorByBinWrapper_init].
  rewrite !(shape_check_passes _ _ HD), !(shape_check_passes _ _ HR).
  run_init. tidy_stores. reflexivity.
Qed.

(** Back constructor, adjoint supplied, no back-projector. *)
Lemma BackProjectorByBinWrapper_init_adjoint (n : nat) (D R : DiscreteLp)
    (vol : FloatVoxelsOnCartesianGrid) (pd : ProjData) (a : nat) (v : Z)
    (w : World) :
  shape R = vol_shape vol -> shape D = pd_shape pd ->
  let i := get_proj_data_info pd in
  BackProjectorByBinWrapper_init (S n) D R vol pd None (Some a) v w =
  (mkWorld (Verbosity w) (volume_data w) (proj_data_data w)
     (proj_matrices w ++ [fresh_proj_matrix])
     (forward_projectors w)
     (back_projectors w ++
        [{| proj_matrix_of := length (proj_matrices w);
            projector_set_up := Some (i, vol) |}])
     (operators w ++
        [Back {| bw_verbosity := v; bw_domain := D; bw_range := R;
                 bw_proj_data := pd; bw_proj_data_info := i;
                 bw_volume := vol;
                 bw_back_projector := length (back_projectors w);
                 bw_adjoint := Some a |}])
     (trace w),
   Return (length (operators w))).
Proof.
  intros HR HD. destruct w as [lvl vd pdd ms fps bps ops tr].
  cbn [BackProjectorByBinWrapper_init].
  rewrite !(shape_check_passes _ _ HD), !(shape_check_passes _ _ HR).
  run_init. tidy_stores. reflexivity.
Qed.

(** Back constructor, back-projector and adjoint both supplied. *)
Lemma BackProjectorByBinWrapper_init_wrap (n : nat) (D R : DiscreteLp)
    (vol : FloatVoxelsOnCartesianGrid) (pd : ProjData) (bp a : nat) (v : Z)
    (w : World) :
  shape R = vol_shape vol -> shape D = pd_shape pd ->
  BackProjectorByBinWrapper_init (S n) D R vol pd (Some bp) (Some a) v w =
  (mkWorld (Verbosity w) (volume_data w) (proj_data_data w)
     (proj_matrices w) (forward_projectors w) (back_projectors w)
     (operators w ++
        [Back {| bw_verbosity := v; bw_domain := D; bw_range := R;
                 bw_proj_data := pd;
                 bw_proj_data_info := get_proj_data_info pd;
                 bw_volume := vol; bw_back_projector := bp;
                 bw_adjoint := Some a |}])
     (trace w),
   Return (length (operators w))).
Proof.
  intros HR HD. destruct w as [lvl vd pdd ms fps bps ops tr].
  cbn [BackProjectorByBinWrapper_init].
  rewrite !(shape_check_passes _ _ HD), !(shape_check_passes _ _ HR).
  run_init. tidy_stores. reflexivity.
Qed.

(** X1: with [adjoint=None] and matching shapes the back constructor
    returns, three levels of calls deep, leaving three operators: the new
    back operator, the forward wrapper it builds, and a second back operator
    built by that wrapper.  The forward wrapper was handed the back operator
    as its [projector]; it is the first back operator's [_adjoint], and its
    own [adjoint] is the second back operator, which points back at it.
    With [back_projector=None] two matrices, both left as the engine made
    them, two engine back-projectors and one engine forward projector are
    created; with a supplied back-projector one matrix and one engine
    back-projector (for the second back operator) and no engine forward
    projector. *)
Theorem back_constructor_builds_three_operators (n : nat) (D R : DiscreteLp)
    (vol : FloatVoxelsOnCartesianGrid) (pd : ProjData)
    (back_projector : option nat) (v : Z) (w : World) :
  shape R = vol_shape vol -> shape D = pd_shape pd ->
  let b := length (operators w) in
  let f := S b in
  let b2 := S f in
  let m := length (proj_matrices w) in
  exists (w' : World) (fo : ForwardWrapperOnOperator),
    BackProjectorByBinWrapper_init (S (S (S n))) D R vol pd back_projector None v w =
      (w', Return b) /\
    is_back w' b = true /\ operators w' !! f = Some (ForwardOnOperator fo) /\
    is_back w' b2 = true /\
    length (operators w') = S (S (S (length (operators w)))) /\
    fo_projector fo = b /\
    adjoint_of w' b = Some f /\ adjoint_property_of w' f = Some b2 /\
    adjoint_of w' b2 = Some f /\
    matrix_under w' f = None /\
    proj_matrices w' !! m = Some fresh_proj_matrix /\
    (back_projector = None ->
     proj_matrices w' = proj_matrices w ++ [fresh_proj_matrix; fresh_proj_matrix] /\
     length (forward_projectors w') = S (length (forward_projectors w)) /\
     length (back_projectors w') = S (S (length (back_projectors w))) /\
     matrix_under w' b = Some m /\ matrix_under w' b2 = Some (S m)) /\
    (forall bp, back_projector = Some bp ->
     proj_matrices w' = proj_matrices w ++ [fresh_proj_matrix] /\
     forward_projectors w' = forward_projectors w /\
     length (back_projectors w') = S (length (back_projectors w)) /\
     matrix_under w' b2 = Some m /\
     ((bp < length (back_projectors w))%nat ->
      matrix_under w' b = proj_matrix_of <$> back_projectors w !! bp)).
Proof.
  intros HR HD b f b2 m. subst b f b2 m.
  destruct back_projector as [bp |];
    [ rewrite (BackProjectorByBinWrapper_init_supplied n D R vol pd bp v w HR HD)
    | rewrite (BackProjectorByBinWrapper_init_fresh n D R vol pd v w HR HD) ];
    (eexists _, _; split; [reflexivity |]); observe_stores.
  - conjuncts; try reflexivity; try lia.
    + intros Hnone. discriminate Hnone.
    + intros q Hq. injection Hq as ->. conjuncts; try reflexivity; try lia.
      intros Hbp. now rewrite lookup_below_snoc.
  - conjuncts; try reflexivity; try lia.
    + intros _. conjuncts; try reflexivity; lia.
    + intros q Hq. discriminate Hq.
Qed.

Lemma back_constructor_builds_three_operators_witness :
  shape cube4 = vol_shape sample_volume /\
  shape sino = pd_shape sample_proj_data /\
  exists (w' : World) (fo : ForwardWrapperOnOperator),
    BackProjectorByBinWrapper_init 3 sino cube4 sample_volume sample_proj_data
      None None 5 empty_world = (w', Return 0%nat) /\
    operators w' !! 1%nat = Some (ForwardOnOperator fo) /\
    fo_projector fo = 0%nat /\
    adjoint_of w' 0 = Some 1%nat /\ adjoint_property_of w' 1 = Some 2%nat /\
    adjoint_of w' 2 = Some 1%nat /\
    matrix_under w' 0 = Some 0%nat /\ matrix_under w' 2 = Some 1%nat.
Proof.
  split; [reflexivity | split; [reflexivity |]].
  destruct (back_constructor_builds_three_operators 0 sino cube4 sample_volume
              sample_proj_data None 5 empty_world eq_refl eq_refl)
    as (w' & fo & Hrun & _ & Hfo & _ & _ & Hp & Hbf & Hfb & Hb2 & _ & _ &
        Hnone & _).
  destruct (Hnone eq_refl) as (_ & _ & _ & Hmb & Hmb2).
  exists w', fo. conjuncts; assumption.
Defined.

(** X2: a constructor that is given its adjoint stores the reference as it
    is and builds no second operator: one operator is added, every object
    that existed before is unchanged (the supplied adjoint is not pointed
    back at the new operator), and no engine projector of the opposite kind
    is created.  One level of nesting suffices. *)
Theorem supplied_adjoint_stored_as_is (n : nat) (D R : DiscreteLp)
    (vol : FloatVoxelsOnCartesianGrid) (pd : ProjData)
    (info : option ProjDataInfo) (projector back_projector : option nat)
    (a : nat) (v : Z) (w : World) :
  shape D = vol_shape vol -> shape R = pd_shape pd ->
  let self := length (operators w) in
  let fwd :=
    ForwardProjectorByBinWrapper_init (S n) D R vol pd info projector (Some a) v w in
  let bck :=
    BackProjectorByBinWrapper_init (S n) R D vol pd back_projector (Some a) v w in
  (snd fwd = Return self /\
   is_forward (fst fwd) self = true /\
   adjoint_of (fst fwd) self = Some a /\
   length (operators (fst fwd)) = S self /\
   objects_kept w (fst fwd) /\
   back_projectors (fst fwd) = back_projectors w) /\
  (snd bck = Return self /\
   is_back (fst bck) self = true /\
   adjoint_of (fst bck) self = Some a /\
   length (operators (fst bck)) = S self /\
   objects_kept w (fst bck) /\
   forward_projectors (fst bck) = forward_projectors w).
Proof.
  intros HD HR self fwd bck. subst self fwd bck. split.
  - destruct projector as [p |];
      [ rewrite (ForwardProjectorByBinWrapper_init_wrap n D R vol pd info p a v w HD HR)
      | rewrite (ForwardProjectorByBinWrapper_init_adjoint n D R vol pd info a v w HD HR) ];
      unfold objects_kept; observe_stores;
      conjuncts; try reflexivity; try apply prefix_snoc.
  - destruct back_projector as [bp |];
      [ rewrite (BackProjectorByBinWrapper_init_wrap n R D vol pd bp a v w HD HR)
      | rewrite (BackProjectorByBinWrapper_init_adjoint n R D vol pd a v w HD HR) ];
      unfold objects_kept; observe_stores;
      conjuncts; try reflexivity; try apply prefix_snoc.
Qed.

Lemma supplied_adjoint_stored_as_is_witness :
  shape cube4 = vol_shape sample_volume /\
  shape sino = pd_shape sample_proj_data /\
  let fwd :=
    ForwardProjectorByBinWrapper_init 1 cube4 sino sample_volume
      sample_proj_data None None (Some 0%nat) 3 world_with_operator in
  snd fwd = Return 1%nat /\
  adjoint_of (fst fwd) 1 = Some 0%nat /\
  operators world_with_operator `prefix_of` operators (fst fwd).
Proof.
  split; [reflexivity | split; [reflexivity |]].
  destruct (supplied_adjoint_stored_as_is 0 cube4 sino sample_volume
              sample_proj_data None None None 0 3 world_with_operator
              eq_refl eq_refl)
    as ((Hret & _ & Hadj & _ & (_ & _ & _ & Hkept) & _) & _).
  cbv zeta. conjuncts; assumption.
Defined.

(** X3: the operator a constructor builds as its adjoint always has
    verbosity 0, whatever verbosity the constructor itself was given; it
    swaps domain and range and shares the volume and projection-data
    objects.  The back operator built by the forward constructor records the
    projection data's own descriptor even when the forward constructor was
    given a [_proj_info] to use instead.  The forward wrapper built by the
    back constructor has the back operator as its [projector] attribute and,
    as its [proj_data_info] attribute, the engine forward projector the back
    constructor made, or the projection data's descriptor when the back
    constructor was given a back-projector and made none. *)
Theorem auto_built_adjoint_attributes (n : nat) (D R : DiscreteLp)
    (vol : FloatVoxelsOnCartesianGrid) (pd : ProjData)
    (info : option ProjDataInfo) (projector back_projector : option nat)
    (v : Z) (w : World) :
  shape D = vol_shape vol -> shape R = pd_shape pd ->
  let self := length (operators w) in
  let fwd :=
    fst (ForwardProjectorByBinWrapper_init (S (S n)) D R vol pd info projector None v w) in
  let bck :=
    fst (BackProjectorByBinWrapper_init (S (S (S n))) R D vol pd back_projector None v w) in
  (exists fo bo,
     operators fwd !! self = Some (Forward fo) /\
     operators fwd !! S self = Some (Back bo) /\
     fw_verbosity fo = v /\ bw_verbosity bo = 0 /\
     bw_domain bo = fw_range fo /\ bw_range bo = fw_domain fo /\
     bw_volume bo = fw_volume fo /\ bw_proj_data bo = fw_proj_data fo /\
     fw_proj_data_info fo = default (get_proj_data_info pd) info /\
     bw_proj_data_info bo = get_proj_data_info pd) /\
  (exists bo fo,
     operators bck !! self = Some (Back bo) /\
     operators bck !! S self = Some (ForwardOnOperator fo) /\
     bw_verbosity bo = v /\ fo_verbosity fo = 0 /\
     fo_domain fo = bw_range bo /\ fo_range fo = bw_domain bo /\
     fo_volume fo = bw_volume bo /\ fo_proj_data fo = bw_proj_data bo /\
     fo_projector fo = self /\
     fo_proj_data_info fo =
       match back_projector with
       | None => inr (length (forward_projectors w))
       | Some _ => inl (get_proj_data_info pd)
       end).
Proof.
  intros HD HR self fwd bck. subst self fwd bck. split.
  - destruct projector as [p |];
      [ rewrite (ForwardProjectorByBinWrapper_init_supplied n D R vol pd info p v w HD HR)
      | rewrite (ForwardProjectorByBinWrapper_init_fresh n D R vol pd info v w HD HR) ];
      cbn [fst operators];
      rewrite lookup_first_of_two, lookup_second_of_two;
      eexists _, _; (split; [reflexivity |]); (split; [reflexivity |]);
      destruct info; cbn; conjuncts; reflexivity.
  - destruct back_projector as [bp |];
      [ rewrite (BackProjectorByBinWrapper_init_supplied n R D vol pd bp v w HD HR)
      | rewrite (BackProjectorByBinWrapper_init_fresh n R D vol pd v w HD HR) ];
      cbn [fst operators];
      rewrite lookup_first_of_three, lookup_second_of_three;
      eexists _, _; (split; [reflexivity |]); (split; [reflexivity |]);
      cbn; conjuncts; reflexivity.
Qed.

Lemma auto_built_adjoint_attributes_witness :
  shape cube4 = vol_shape sample_volume /\
  shape sino = pd_shape sample_proj_data /\
  (exists bo,
     operators
       (fst (ForwardProjectorByBinWrapper_init 2 cube4 sino sample_volume
               sample_proj_data (Some mCT_proj_data_info) None None 3
               empty_world)) !! 1%nat = Some (Back bo) /\
     bw_verbosity bo = 0 /\ bw_proj_data_info bo = sample_info) /\
  (exists fo,
     operators
       (fst (BackProjectorByBinWrapper_init 3 sino cube4 sample_volume
               sample_proj_data None None 3 empty_world)) !! 1%nat =
       Some (ForwardOnOperator fo) /\
     fo_verbosity fo = 0 /\ fo_projector fo = 0%nat /\
     fo_proj_data_info fo = inr 0%nat).
Proof.
  split; [reflexivity | split; [reflexivity |]].
  destruct (auto_built_adjoint_attributes 0 cube4 sino sample_volume
              sample_proj_data (Some mCT_proj_data_info) None None 3
              empty_world eq_refl eq_refl)
    as ((fo & bo & _ & Hbo & _ & Hv & _ & _ & _ & _ & _ & Hinfo) &
        (bo' & fo' & _ & Hfo' & _ & Hv' & _ & _ & _ & _ & Hp' & Hinfo')).
  split.
  - exists bo. conjuncts; assumption.
  - exists fo'. conjuncts; assumption.
Defined.

(** X4: whatever its arguments, a constructor call leaves the verbosity
    level and the contents of every buffer as they were, and keeps every
    matrix, projector and operator that existed before, at its address and
    unchanged: the adjoint references it sets are those of the operators it
    has just created. *)
Theorem construction_frame (n : nat) (D R : DiscreteLp)
    (vol : FloatVoxelsOnCartesianGrid) (pd : ProjData)
    (info : option ProjDataInfo) (projector back_projector adjoint : option nat)
    (v : Z) (w : World) :
  let fwd :=
    fst (ForwardProjectorByBinWrapper_init (S (S (S n))) D R vol pd info projector adjoint v w) in
  let bck :=
    fst (BackProjectorByBinWrapper_init (S (S (S n))) D R vol pd back_projector adjoint v w) in
  (same_engine_data w fwd /\ objects_kept w fwd) /\
  (same_engine_data w bck /\ objects_kept w bck).
Proof.
  intros fwd bck. subst fwd bck.
  unfold same_engine_data, objects_kept. split.
  - destruct (decide (shape D = vol_shape vol)) as [HD | HD];
      [| rewrite (ForwardProjectorByBinWrapper_init_volume_mismatch (S (S n))) by exact HD;
         cbn [fst]; conjuncts; reflexivity ].
    destruct (decide (shape R = pd_shape pd)) as [HR | HR];
      [| rewrite (ForwardProjectorByBinWrapper_init_proj_mismatch (S (S n))) by assumption;
         cbn [fst]; conjuncts; reflexivity ].
    destruct projector as [p |], adjoint as [a |];
      [ rewrite (ForwardProjectorByBinWrapper_init_wrap (S (S n)) D R vol pd info p a v w HD HR)
      | rewrite (ForwardProjectorByBinWrapper_init_supplied (S n) D R vol pd info p v w HD HR)
      | rewrite (ForwardProjectorByBinWrapper_init_adjoint (S (S n)) D R vol pd info a v w HD HR)
      | rewrite (ForwardProjectorByBinWrapper_init_fresh (S n) D R vol pd info v w HD HR) ];
      cbn [fst Verbosity volume_data proj_data_data operators
           proj_matrices forward_projectors back_projectors];
      conjuncts; try reflexivity; apply prefix_snoc.
  - destruct (decide (shape R = vol_shape vol)) as [HR | HR];
      [| rewrite (BackProjectorByBinWrapper_init_volume_mismatch (S (S n))) by exact HR;
         cbn [fst]; conjuncts; reflexivity ].
    destruct (decide (shape D = pd_shape pd)) as [HD | HD];
      [| rewrite (BackProjectorByBinWrapper_init_proj_mismatch (S (S n))) by assumption;
         cbn [fst]; conjuncts; reflexivity ].
    destruct back_projector as [bp |], adjoint as [a |];
      [ rewrite (BackProjectorByBinWrapper_init_wrap (S (S n)) D R vol pd bp a v w HR HD)
      | rewrite (BackProjectorByBinWrapper_init_supplied n D R vol pd bp v w HR HD)
      | rewrite (BackProjectorByBinWrapper_init_adjoint (S (S n)) D R vol pd a v w HR HD)
      | rewrite (BackProjectorByBinWrapper_init_fresh n D R vol pd v w HR HD) ];
      cbn [fst Verbosity volume_data proj_data_data operators
           proj_matrices forward_projectors back_projectors];
      conjuncts; try reflexivity; apply prefix_snoc.
Qed.

(** X5: the forward constructor checks the volume shape first and the
    projection shape second; a mismatch raises the [ValueError] naming the
    two shapes compared and leaves the state as it was, whatever projector
    or adjoint was passed; when both shapes agree the constructor returns
    the address of the new operator. *)
Theorem forward_constructor_outcome (n : nat) (D R : DiscreteLp)
    (vol : FloatVoxelsOnCartesianGrid) (pd : ProjData)
    (info : option ProjDataInfo) (projector adjoint : option nat)
    (v : Z) (w : World) :
  let run :=
    ForwardProjectorByBinWrapper_init (S (S n)) D R vol pd info projector adjoint v w in
  (shape D ≠ vol_shape vol ->
   run = (w, Raise (ValueError ("domain.shape " ++ str_tuple (shape D) ++
                                " does not equal volume shape " ++
                                str_tuple (vol_shape vol))))) /\
  (shape D = vol_shape vol -> shape R ≠ pd_shape pd ->
   run = (w, Raise (ValueError ("range.shape " ++ str_tuple (shape R) ++
                                " does not equal proj shape " ++
                                str_tuple (pd_shape pd))))) /\
  (shape D = vol_shape vol -> shape R = pd_shape pd ->
   snd run = Return (length (operators w))).
Proof.
  intros run. subst run. conjuncts.
  - intros HD. now apply ForwardProjectorByBinWrapper_init_volume_mismatch.
  - intros HD HR. now apply ForwardProjectorByBinWrapper_init_proj_mismatch.
  - intros HD HR.
    destruct projector as [p |], adjoint as [a |];
      [ rewrite (ForwardProjectorByBinWrapper_init_wrap (S n) D R vol pd info p a v w HD HR)
      | rewrite (ForwardProjectorByBinWrapper_init_supplied n D R vol pd info p v w HD HR)
      | rewrite (ForwardProjectorByBinWrapper_init_adjoint (S n) D R vol pd info a v w HD HR)
      | rewrite (ForwardProjectorByBinWrapper_init_fresh n D R vol pd info v w HD HR) ];
      reflexivity.
Qed.

(** X6: the back constructor checks [range] against the volume first and
    [domain] against the projection data second; either mismatch raises a
    [ValueError] and leaves the state as it was, whatever back-projector or
    adjoint was passed; when both shapes agree the constructor, given three
    levels of calls, returns the address of the new operator. *)
Theorem back_constructor_outcome (n : nat) (D R : DiscreteLp)
    (vol : FloatVoxelsOnCartesianGrid) (pd : ProjData)
    (back_projector adjoint : option nat) (v : Z) (w : World) :
  let run :=
    BackProjectorByBinWrapper_init (S (S (S n))) D R vol pd back_projector adjoint v w in
  (shape R ≠ vol_shape vol ->
   run = (w, Raise (ValueError ("`range.shape` " ++ str_tuple (shape R) ++
                                " does not equal volume shape " ++
                                str_tuple (vol_shape vol))))) /\
  (shape R = vol_shape vol -> shape D ≠ pd_shape pd ->
   exists msg : string, run = (w, Raise (ValueError msg))) /\
  (shape R = vol_shape vol -> shape D = pd_shape pd ->
   snd run = Return (length (operators w))).
Proof.
  intros run. subst run. conjuncts.
  - intros HR. now apply BackProjectorByBinWrapper_init_volume_mismatch.
  - intros HR HD. eexists.
    now apply BackProjectorByBinWrapper_init_proj_mismatch.
  - intros HR HD.
    destruct back_projector as [bp |], adjoint as [a |];
      [ rewrite (BackProjectorByBinWrapper_init_wrap (S (S n)) D R vol pd bp a v w HR HD)
      | rewrite (BackProjectorByBinWrapper_init_supplied n D R vol pd bp v w HR HD)
      | rewrite (BackProjectorByBinWrapper_init_adjoint (S (S n)) D R vol pd a v w HR HD)
      | rewrite (BackProjectorByBinWrapper_init_fresh n D R vol pd v w HR HD) ];
      reflexivity.
Qed.

Lemma forward_constructor_outcome_witness :
  (shape cube4 ≠ vol_shape bad_volume /\
   ForwardProjectorByBinWrapper_init 2 cube4 sino bad_volume sample_proj_data
     None None None 0 empty_world =
   (empty_world,
    Raise (ValueError "domain.shape (4, 4, 4) does not equal volume shape (5, 4, 4)"))) /\
  (shape cube4 = vol_shape sample_volume /\
   shape bad_sino ≠ pd_shape sample_proj_data /\
   ForwardProjectorByBinWrapper_init 2 cube4 bad_sino sample_volume
     sample_proj_data None None None 0 empty_world =
   (empty_world,
    Raise (ValueError "range.shape (5, 3, 5) does not equal proj shape (5, 3, 4)"))) /\
  (shape sino = pd_shape sample_proj_data /\
   snd (ForwardProjectorByBinWrapper_init 2 cube4 sino sample_volume
          sample_proj_data None None None 0 empty_world) = Return 0%nat).
Proof.
  assert (H1 : shape cube4 ≠ vol_shape bad_volume) by (intros H; discriminate H).
  assert (H2 : shape bad_sino ≠ pd_shape sample_proj_data)
    by (intros H; discriminate H).
  split; [split; [exact H1 |] | split; [split; [reflexivity | split; [exact H2 |]]
                                       | split; [reflexivity |]]].
  - exact (proj1 (forward_constructor_outcome 0 cube4 sino bad_volume
                    sample_proj_data None None None 0 empty_world) H1).
  - exact (proj1 (proj2 (forward_constructor_outcome 0 cube4 bad_sino
                           sample_volume sample_proj_data None None None 0
                           empty_world)) eq_refl H2).
  - exact (proj2 (proj2 (forward_constructor_outcome 0 cube4 sino
                           sample_volume sample_proj_data None None None 0
                           empty_world)) eq_refl eq_refl).
Defined.

Lemma back_constructor_outcome_witness :
  (shape cube4 ≠ vol_shape bad_volume /\
   BackProjectorByBinWrapper_init 3 sino cube4 bad_volume sample_proj_data
     None None 0 empty_world =
   (empty_world,
    Raise (ValueError "`range.shape` (4, 4, 4) does not equal volume shape (5, 4, 4)"))) /\
  (shape cube4 = vol_shape sample_volume /\
   shape bad_sino ≠ pd_shape sample_proj_data /\
   exists msg : string,
     BackProjectorByBinWrapper_init 3 bad_sino cube4 sample_volume
       sample_proj_data None None 0 empty_world =
     (empty_world, Raise (ValueError msg))) /\
  (shape sino = pd_shape sample_proj_data /\
   snd (BackProjectorByBinWrapper_init 3 sino cube4 sample_volume
          sample_proj_data None None 0 empty_world) = Return 0%nat).
Proof.
  assert (H1 : shape cube4 ≠ vol_shape bad_volume) by (intros H; discriminate H).
  assert (H2 : shape bad_sino ≠ pd_shape sample_proj_data)
    by (intros H; discriminate H).
  split; [split; [exact H1 |] | split; [split; [reflexivity | split; [exact H2 |]]
                                       | split; [reflexivity |]]].
  - exact (proj1 (back_constructor_outcome 0 sino cube4 bad_volume
                    sample_proj_data None None 0 empty_world) H1).
  - exact (proj1 (proj2 (back_constructor_outcome 0 bad_sino cube4
                           sample_volume sample_proj_data None None 0
                           empty_world)) eq_refl H2).
  - exact (proj2 (proj2 (back_constructor_outcome 0 sino cube4
                           sample_volume sample_proj_data None None 0
                           empty_world)) eq_refl eq_refl).
Defined.

(** ** bindings.py: what an application leaves behind *)

Section application_more.
Context `{StirEngine}.

(** X7: an application of either operator creates and changes no matrix,
    projector or operator object; afterwards the source buffer holds the
    argument, the array returned (when the engine call does not raise) is
    what the destination buffer holds, and no other buffer has changed. *)
Theorem application_frame
    (fw : ForwardProjectorByBinWrapper) (bw : BackProjectorByBinWrapper)
    (volume projections : list spec_float) (w : World) :
  let frun := ForwardProjectorByBinWrapper_call fw volume w in
  let brun := BackProjectorByBinWrapper_call bw projections w in
  let held_f := contents (proj_data_buffer (fw_proj_data fw)) (fst frun) in
  let held_b := contents (volume_buffer (bw_volume bw)) (fst brun) in
  (same_objects w (fst frun) /\
   contents (volume_buffer (fw_volume fw)) (fst frun) = volume /\
   (snd frun = Return held_f \/ exists msg, snd frun = Raise (StirError msg)) /\
   delete (vol_id (fw_volume fw)) (volume_data (fst frun)) =
     delete (vol_id (fw_volume fw)) (volume_data w) /\
   delete (pd_id (fw_proj_data fw)) (proj_data_data (fst frun)) =
     delete (pd_id (fw_proj_data fw)) (proj_data_data w)) /\
  (same_objects w (fst brun) /\
   contents (proj_data_buffer (bw_proj_data bw)) (fst brun) = projections /\
   (snd brun = Return held_b \/ exists msg, snd brun = Raise (StirError msg)) /\
   delete (vol_id (bw_volume bw)) (volume_data (fst brun)) =
     delete (vol_id (bw_volume bw)) (volume_data w) /\
   delete (pd_id (bw_proj_data bw)) (proj_data_data (fst brun)) =
     delete (pd_id (bw_proj_data bw)) (proj_data_data w)).
Proof.
  intros frun brun held_f held_b. subst frun brun held_f held_b.
  rewrite ForwardProjectorByBinWrapper_call_run,
    BackProjectorByBinWrapper_call_run.
  unfold same_objects, contents, volume_buffer, proj_data_buffer.
  cbn [fst snd volume_data proj_data_data proj_matrices forward_projectors
       back_projectors operators].
  rewrite !lookup_insert_eq, !delete_insert_eq. cbn [from_option id].
  conjuncts; try reflexivity.
  - destruct (snd (project _ _ _ _ _)) as [msg |];
      [right; now exists msg | now left].
  - destruct (snd (project _ _ _ _ _)) as [msg |];
      [right; now exists msg | now left].
Qed.

(** X8: the projection-data buffer carries over from one application to the
    next: a forward application hands the engine, as the destination's
    contents, whatever the previous application left there -- the output of
    a preceding forward application, or the argument of a preceding back
    application through an operator on the same projection-data object. *)
Theorem forward_destination_carries_over
    (fw : ForwardProjectorByBinWrapper) (bw : BackProjectorByBinWrapper)
    (x1 x2 y : list spec_float) (w : World) :
  pd_id (bw_proj_data bw) = pd_id (fw_proj_data fw) ->
  let lvl := fw_verbosity fw in
  let p := fw_projector fw in
  let out1 :=
    fst (project forward_project (matrix_of_projector forward_project p w) lvl
           (contents (proj_data_buffer (fw_proj_data fw)) w) x1) in
  let after_forward := fst (ForwardProjectorByBinWrapper_call fw x1 w) in
  let after_back := fst (BackProjectorByBinWrapper_call bw y w) in
  Ev_project forward_project p lvl out1 x2
    ∈ trace (fst (ForwardProjectorByBinWrapper_call fw x2 after_forward)) /\
  Ev_project forward_project p lvl y x2
    ∈ trace (fst (ForwardProjectorByBinWrapper_call fw x2 after_back)).
Proof.
  intros Hpd lvl p out1 after_forward after_back.
  subst lvl p out1 after_forward after_back.
  rewrite !ForwardProjectorByBinWrapper_call_run,
    BackProjectorByBinWrapper_call_run.
  unfold contents, proj_data_buffer.
  cbn [fst snd trace proj_data_data].
  rewrite Hpd, !lookup_insert_eq. cbn [from_option id].
  split; apply elem_of_app; right;
    do 4 apply list_elem_of_further; apply list_elem_of_here.
Qed.

(** X9: a pair built by the forward constructor, applied.  The forward
    operator projects through the matrix the constructor configured, under
    the verbosity it was given; its adjoint back-projects through the same
    matrix, under verbosity 0, into one zero per cell of the forward
    operator's domain. *)
Theorem forward_pair_end_to_end (n : nat) (D R : DiscreteLp)
    (vol : FloatVoxelsOnCartesianGrid) (pd : ProjData)
    (info : option ProjDataInfo) (v : Z) (x y : list spec_float) (w : World) :
  shape D = vol_shape vol -> shape R = pd_shape pd ->
  let i := default (get_proj_data_info pd) info in
  let matrix := Some (forward_built_matrix i vol) in
  let w1 :=
    fst (ForwardProjectorByBinWrapper_init (S (S n)) D R vol pd info None None v w) in
  let forward_engine :=
    project forward_project matrix v (contents (proj_data_buffer pd) w) x in
  let back_engine := project back_project matrix 0 (zero D) y in
  exists fo bo,
    operators w1 !! length (operators w) = Some (Forward fo) /\
    operators w1 !! S (length (operators w)) = Some (Back bo) /\
    snd (ForwardProjectorByBinWrapper_call fo x w1) =
      match snd forward_engine with
      | None => Return (fst forward_engine)
      | Some msg => Raise (StirError msg)
      end /\
    snd (BackProjectorByBinWrapper_call bo y w1) =
      match snd back_engine with
      | None => Return (fst back_engine)
      | Some msg => Raise (StirError msg)
      end.
Proof.
  intros HD HR i matrix w1 forward_engine back_engine.
  subst i matrix w1 forward_engine back_engine.
  rewrite (ForwardProjectorByBinWrapper_init_fresh n D R vol pd info v w HD HR).
  cbn [fst operators].
  rewrite lookup_first_of_two, lookup_second_of_two.
  eexists _, _. split; [reflexivity |]. split; [reflexivity |].
  rewrite ForwardProjectorByBinWrapper_call_run,
    BackProjectorByBinWrapper_call_run.
  unfold matrix_of_projector, contents, proj_data_buffer.
  cbn [snd fw_projector bw_back_projector fw_verbosity bw_verbosity
       fw_proj_data bw_range forward_projectors back_projectors proj_matrices
       proj_data_data].
  rewrite !lookup_snoc. cbn [mbind option_bind proj_matrix_of].
  rewrite !lookup_snoc.
  destruct info; split; reflexivity.
Qed.

End application_more.

Lemma forward_destination_carries_over_witness :
  pd_id (bw_proj_data sample_back_op) = pd_id (fw_proj_data sample_forward_op) /\
  Ev_project forward_project 0 2 [S754_zero true] [S754_zero false]
    ∈ trace
        (fst (ForwardProjectorByBinWrapper_call sample_forward_op
                [S754_zero false]
                (fst (BackProjectorByBinWrapper_call sample_back_op
                        [S754_zero true] empty_world)))).
Proof.
  split; [reflexivity |].
  exact (proj2 (forward_destination_carries_over sample_forward_op
                  sample_back_op [] [S754_zero false] [S754_zero true]
                  empty_world eq_refl)).
Defined.

Lemma forward_pair_end_to_end_witness :
  shape cube4 = vol_shape sample_volume /\
  shape sino = pd_shape sample_proj_data /\
  exists fo bo,
    operators
      (fst (ForwardProjectorByBinWrapper_init 2 cube4 sino sample_volume
              sample_proj_data None None None 2 empty_world)) !! 0%nat =
      Some (Forward fo) /\
    operators
      (fst (ForwardProjectorByBinWrapper_init 2 cube4 sino sample_volume
              sample_proj_data None None None 2 empty_world)) !! 1%nat =
      Some (Back bo) /\
    snd (ForwardProjectorByBinWrapper_call fo [S754_zero true]
           (fst (ForwardProjectorByBinWrapper_init 2 cube4 sino sample_volume
                   sample_proj_data None None None 2 empty_world))) =
      Return [S754_zero true].
Proof.
  split; [reflexivity | split; [reflexivity |]].
  destruct (forward_pair_end_to_end 0 cube4 sino sample_volume
              sample_proj_data None 2 [S754_zero true] [] empty_world
              eq_refl eq_refl) as (fo & bo & Hfo & Hbo & Hf & _).
  exists fo, bo. conjuncts; assumption.
Defined.

(** X10: how deep the constructors nest.  For the forward constructor two
    levels of calls are enough, whatever the arguments, and allowing more
    changes nothing.  For the back constructor three levels are enough and
    allowing more changes nothing; with no adjoint given and matching shapes
    two levels are not enough, since the forward wrapper it builds is not
    told its adjoint and calls the back constructor again. *)
Theorem constructors_nesting_depth (n : nat) (D R : DiscreteLp)
    (vol : FloatVoxelsOnCartesianGrid) (pd : ProjData)
    (info : option ProjDataInfo) (projector back_projector adjoint : option nat)
    (v : Z) (w : World) :
  (ForwardProjectorByBinWrapper_init (S (S n)) D R vol pd info projector adjoint v w =
   ForwardProjectorByBinWrapper_init 2 D R vol pd info projector adjoint v w /\
   snd (ForwardProjectorByBinWrapper_init 2 D R vol pd info projector adjoint v w)
     <> OutOfFuel) /\
  (BackProjectorByBinWrapper_init (S (S (S n))) D R vol pd back_projector adjoint v w =
   BackProjectorByBinWrapper_init 3 D R vol pd back_projector adjoint v w /\
   snd (BackProjectorByBinWrapper_init 3 D R vol pd back_projector adjoint v w)
     <> OutOfFuel) /\
  (shape R = vol_shape vol -> shape D = pd_shape pd ->
   snd (BackProjectorByBinWrapper_init 2 D R vol pd back_projector None v w) =
     OutOfFuel).
Proof.
  split; [| split].
  - destruct (decide (shape D = vol_shape vol)) as [HD | HD];
      [| rewrite !(ForwardProjectorByBinWrapper_init_volume_mismatch _ D R vol pd
                     info projector adjoint v w HD);
         split; [reflexivity | discriminate] ].
    destruct (decide (shape R = pd_shape pd)) as [HR | HR];
      [| rewrite !(ForwardProjectorByBinWrapper_init_proj_mismatch _ D R vol pd
                     info projector adjoint v w HD HR);
         split; [reflexivity | discriminate] ].
    destruct projector as [p |], adjoint as [a |].
    + rewrite !(ForwardProjectorByBinWrapper_init_wrap _ D R vol pd info p a v w HD HR).
      split; [reflexivity | discriminate].
    + rewrite !(ForwardProjectorByBinWrapper_init_supplied _ D R vol pd info p v w HD HR).
      split; [reflexivity | discriminate].
    + rewrite !(ForwardProjectorByBinWrapper_init_adjoint _ D R vol pd info a v w HD HR).
      split; [reflexivity | discriminate].
    + rewrite !(ForwardProjectorByBinWrapper_init_fresh _ D R vol pd info v w HD HR).
      split; [reflexivity | discriminate].
  - destruct (decide (shape R = vol_shape vol)) as [HR | HR];
      [| rewrite !(BackProjectorByBinWrapper_init_volume_mismatch _ D R vol pd
                     back_projector adjoint v w HR);
         split; [reflexivity | discriminate] ].
    destruct (decide (shape D = pd_shape pd)) as [HD | HD];
      [| rewrite !(BackProjectorByBinWrapper_init_proj_mismatch _ D R vol pd
                     back_projector adjoint v w HR HD);
         split; [reflexivity | discriminate] ].
    destruct back_projector as [bp |], adjoint as [a |].
    + rewrite !(BackProjectorByBinWrapper_init_wrap _ D R vol pd bp a v w HR HD).
      split; [reflexivity | discriminate].
    + rewrite !(BackProjectorByBinWrapper_init_supplied _ D R vol pd bp v w HR HD).
      split; [reflexivity | discriminate].
    + rewrite !(BackProjectorByBinWrapper_init_adjoint _ D R vol pd a v w HR HD).
      split; [reflexivity | discriminate].
    + rewrite !(BackProjectorByBinWrapper_init_fresh _ D R vol pd v w HR HD).
      split; [reflexivity | discriminate].
  - intros HR HD. now apply BackProjectorByBinWrapper_init_two_levels.
Qed.

Lemma constructors_nesting_depth_witness :
  shape cube4 = vol_shape sample_volume /\
  shape sino = pd_shape sample_proj_data /\
  snd (BackProjectorByBinWrapper_init 2 sino cube4 sample_volume
         sample_proj_data None None 0 empty_world) = OutOfFuel /\
  snd (BackProjectorByBinWrapper_init 3 sino cube4 sample_volume
         sample_proj_data None None 0 empty_world) <> OutOfFuel.
Proof.
  split; [reflexivity | split; [reflexivity |]].
  destruct (constructors_nesting_depth 0 sino cube4 sample_volume
              sample_proj_data None None None None 0 empty_world)
    as (_ & (_ & Hthree) & Htwo).
  split; [exact (Htwo eq_refl eq_refl) | exact Hthree].
Defined.

(** One application of a forward wrapper whose [projector] is an operator. *)
Lemma ForwardWrapperOnOperator_call_run
    (self : ForwardWrapperOnOperator) (volume : list spec_float) (w : World) :
  let vol := vol_id (fo_volume self) in
  ForwardWrapperOnOperator_call self volume w =
  (mkWorld (Verbosity w)
     (<[vol := volume]> (volume_data w)) (proj_data_data w)
     (proj_matrices w) (forward_projectors w) (back_projectors w)
     (operators w)
     (trace w ++
        [Ev_fill (VolumeBuf vol) volume;
         Ev_Verbosity_get (Verbosity w);
         Ev_Verbosity_set (fo_verbosity self);
         Ev_Verbosity_set (Verbosity w)]),
   Raise (AttributeError "forward_project")).
Proof.
  destruct w as [lvl vd pdd ms fps bps ops tr].
  cbv beta iota zeta delta
    [ForwardWrapperOnOperator_call with_StirVerbosity StirVerbosity_enter
     StirVerbosity_init StirVerbosity_exit try_finally bind ret raise fill
     Verbosity_get Verbosity_set log store volume_buffer
     sv_verbosity old_verbosity
     Verbosity volume_data proj_data_data proj_matrices forward_projectors
     back_projectors operators trace fst snd].
  rewrite <- !app_assoc. reflexivity.
Qed.

(** X15: the adjoint of a back operator constructed with [adjoint=None]
    cannot project.  Its [projector] attribute is that back operator, not an
    engine projector, so an application fills the volume buffer, enters the
    verbosity block (level 0), finds no [forward_project] to call, and
    leaves with [AttributeError]: the engine is asked for no projection, the
    verbosity level is restored, the projection data and every object are
    as construction left them. *)
Theorem back_first_forward_cannot_project (n : nat) (D R : DiscreteLp)
    (vol : FloatVoxelsOnCartesianGrid) (pd : ProjData)
    (back_projector : option nat) (v : Z) (x : list spec_float) (w : World) :
  shape R = vol_shape vol -> shape D = pd_shape pd ->
  let b := length (operators w) in
  let w1 :=
    fst (BackProjectorByBinWrapper_init (S (S (S n))) D R vol pd back_projector None v w) in
  exists (f : nat) (fo : ForwardWrapperOnOperator),
    adjoint_of w1 b = Some f /\
    operators w1 !! f = Some (ForwardOnOperator fo) /\
    fo_projector fo = b /\ is_back w1 b = true /\
    let run := ForwardWrapperOnOperator_call fo x w1 in
    snd run = Raise (AttributeError "forward_project") /\
    trace (fst run) =
      trace w ++ [Ev_fill (volume_buffer vol) x;
                  Ev_Verbosity_get (Verbosity w);
                  Ev_Verbosity_set 0;
                  Ev_Verbosity_set (Verbosity w)] /\
    Verbosity (fst run) = Verbosity w /\
    contents (volume_buffer vol) (fst run) = x /\
    proj_data_data (fst run) = proj_data_data w /\
    same_objects w1 (fst run).
Proof.
  intros HR HD b w1. subst b w1.
  exists (S (length (operators w))).
  destruct back_projector as [bp |];
    [ rewrite (BackProjectorByBinWrapper_init_supplied n D R vol pd bp v w HR HD)
    | rewrite (BackProjectorByBinWrapper_init_fresh n D R vol pd v w HR HD) ];
    eexists; observe_stores;
    (split; [reflexivity |]); (split; [reflexivity |]);
    cbn [fo_projector]; (split; [reflexivity |]); (split; [reflexivity |]);
    cbv zeta; rewrite ForwardWrapperOnOperator_call_run;
    unfold same_objects, contents, volume_buffer;
    cbn [fst snd Verbosity volume_data proj_data_data proj_matrices
         forward_projectors back_projectors operators trace
         fo_projector fo_volume fo_verbosity];
    rewrite lookup_insert_eq; conjuncts; reflexivity.
Qed.

Lemma back_first_forward_cannot_project_witness :
  shape cube4 = vol_shape sample_volume /\
  shape sino = pd_shape sample_proj_data /\
  exists (f : nat) (fo : ForwardWrapperOnOperator),
    adjoint_of
      (fst (BackProjectorByBinWrapper_init 3 sino cube4 sample_volume
              sample_proj_data None None 2 empty_world)) 0 = Some f /\
    operators
      (fst (BackProjectorByBinWrapper_init 3 sino cube4 sample_volume
              sample_proj_data None None 2 empty_world)) !! f =
      Some (ForwardOnOperator fo) /\
    snd (ForwardWrapperOnOperator_call fo [S754_zero true]
           (fst (BackProjectorByBinWrapper_init 3 sino cube4 sample_volume
                   sample_proj_data None None 2 empty_world))) =
      Raise (AttributeError "forward_project").
Proof.
  split; [reflexivity | split; [reflexivity |]].
  destruct (back_first_forward_cannot_project 0 sino cube4 sample_volume
              sample_proj_data None 2 [S754_zero true] empty_world
              eq_refl eq_refl)
    as (f & fo & Hf & Hfo & _ & _ & Hrun & _).
  exists f, fo. split; [exact Hf | split; [exact Hfo | exact Hrun]].
Defined.

(** ** scanner.py: the registry of names *)

Lemma split_length (sep : ascii) (s : string) :
  length (split sep s) = S (count_char sep s).
Proof.
  induction s as [| c s IH]; [reflexivity |].
  cbn [split count_char]. destruct (Ascii.eqb c sep).
  - cbn [length]. now rewrite IH.
  - destruct (split sep s) as [| p ps]; [discriminate IH |].
    cbn [length] in *. lia.
Qed.

(** No piece holds the separator, and a character that [s] lacks is in no
    piece. *)
Lemma split_pieces (sep c : ascii) (s : string) :
  Forall (fun p => count_char sep p = 0%nat /\
                   (count_char c s = 0%nat -> count_char c p = 0%nat))
         (split sep s).
Proof.
  induction s as [| a s IH]; [repeat constructor |].
  cbn [split count_char]. destruct (Ascii.eqb a sep) eqn:Hsep.
  - constructor; [split; [reflexivity | reflexivity] |].
    eapply Forall_impl; [exact IH |].
    intros p [Hp Hc]. split; [exact Hp |]. intros Hz. apply Hc. lia.
  - destruct (split sep s) as [| p ps]; [repeat constructor;
      cbn [count_char]; rewrite ?Hsep; try reflexivity; intros Hz; lia |].
    inversion IH as [| ? ? [Hp Hc] Hps]; subst.
    constructor.
    + cbn [count_char]. rewrite Hsep. split; [exact Hp |].
      intros Hz. destruct (Ascii.eqb a c); [discriminate Hz |].
      apply Hc. exact Hz.
    + eapply Forall_impl; [exact Hps |].
      intros q [Hq Hqc]. split; [exact Hq |]. intros Hz. apply Hqc. lia.
Qed.

Lemma rstrip_idempotent (s : string) : rstrip (rstrip s) = rstrip s.
Proof.
  induction s as [| c s IH]; [reflexivity |].
  cbn [rstrip]. destruct (rstrip s) as [| d r] eqn:Hr.
  - destruct (isspace c) eqn:Hc; [reflexivity |].
    cbn [rstrip]. now rewrite Hc.
  - cbn [rstrip] in *. now rewrite IH.
Qed.

Lemma rstrip_count (c : ascii) (s : string) :
  (count_char c (rstrip s) <= count_char c s)%nat.
Proof.
  induction s as [| a s IH]; [reflexivity |].
  cbn [rstrip count_char]. destruct (rstrip s) as [| d r].
  - destruct (isspace a); cbn [count_char] in *; lia.
  - cbn [count_char] in *. lia.
Qed.

Lemma removelast_Forall {A} (P : A -> Prop) (l : list A) :
  Forall P l -> Forall P (removelast l).
Proof.
  induction 1 as [| x l Hx Hl IH]; [constructor |].
  destruct l as [| y l]; [constructor |].
  change (removelast (x :: y :: l)) with (x :: removelast (y :: l)).
  now constructor.
Qed.

Lemma removelast_length {A} (l : list A) :
  length (removelast l) = Nat.pred (length l).
Proof.
  induction l as [| x l IH]; [reflexivity |].
  destruct l as [| y l]; [reflexivity |].
  change (removelast (x :: y :: l)) with (x :: removelast (y :: l)).
  cbn [length] in *. now rewrite IH.
Qed.

Section registry_facts.
Context `{StirEngine}.

(** X11: [SCANNER_NAMES] has one entry per newline of the engine's listing
    (text after the last newline is dropped), and no entry contains a comma
    or a newline or ends in white space. *)
Theorem registry_names_clean :
  length SCANNER_NAMES = count_char newline Scanner_list_all_names /\
  Forall (fun name => rstrip name = name /\
                      count_char comma name = 0%nat /\
                      count_char newline name = 0%nat)
         SCANNER_NAMES.
Proof.
  unfold SCANNER_NAMES, get_scanner_names. split.
  - rewrite length_map, removelast_length, split_length. reflexivity.
  - apply Forall_map. apply removelast_Forall.
    eapply Forall_impl; [apply (split_pieces newline newline) |].
    intros line [Hline _]. cbn beta.
    pose proof (split_pieces comma newline line) as Hpieces.
    pose proof (split_length comma line) as Hlen.
    destruct (split comma line) as [| p ps]; [discriminate Hlen |].
    inversion Hpieces as [| ? ? [Hp Hnl] _]; subst. cbn [hd].
    split; [apply rstrip_idempotent |].
    pose proof (rstrip_count comma p). pose proof (rstrip_count newline p).
    specialize (Hnl Hline). lia.
Qed.

End registry_facts.

(** ** scanner.py and compression.py: from the engine and back *)

Section geometry_more.
Context `{StirEngine}.

(** X12: converting an engine scanner to a [Scanner] and asking that
    [Scanner] for its engine geometry gives the engine scanner back (or the
    geometry [TypeError], if the engine finds it inconsistent), provided its
    integer fields are int32 values and its float fields float32 values; so
    a registered name looked up by [get_scanner_by_name] leads back to the
    engine's scanner of that name. *)
Theorem scanner_round_trip (s : StirScanner) (name : string) (w : World) :
  (engine_scanner_values s ->
   get_stir_scanner (_scanner_from_stir s) w =
   (log (Ev_get_scanner_from_name "") w,
    if check_consistency_yes s then Return s
    else Raise (TypeError "Something is wrong in the scanner geometry."))) /\
  (name ∈ SCANNER_NAMES ->
   engine_scanner_values (Scanner_get_scanner_from_name name) ->
   (let* scanner := get_scanner_by_name name in get_stir_scanner scanner) w =
   (log (Ev_get_scanner_from_name "") (log (Ev_get_scanner_from_name name) w),
    if check_consistency_yes (Scanner_get_scanner_from_name name)
    then Return (Scanner_get_scanner_from_name name)
    else Raise (TypeError "Something is wrong in the scanner geometry."))).
Proof.
  assert (Hback : forall s' w',
    engine_scanner_values s' ->
    get_stir_scanner (_scanner_from_stir s') w' =
    (log (Ev_get_scanner_from_name "") w',
     if check_consistency_yes s' then Return s'
     else Raise (TypeError "Something is wrong in the scanner geometry."))).
  { intros s' w' Hvalues. unfold get_stir_scanner.
    rewrite stir_get_STIR_geometry_run.
    destruct s'. unfold engine_scanner_values, int32_value, float32_value in Hvalues.
    cbn [_scanner_from_stir num_rings num_dets_per_ring voxel_size_xy
         default_non_arc_cor_bins intrinsic_tilt det_radius ring_spacing
         average_depth_of_inter max_num_non_arc_cor_bins
         axials_blocks_per_bucket trans_blocks_per_bucket
         axial_crystals_per_block trans_crystals_per_block
         axial_crystals_per_singles_unit trans_crystals_per_singles_unit
         num_detector_layers get_num_rings get_num_detectors_per_ring
         get_default_bin_size get_default_num_arccorrected_bins
         get_default_intrinsic_tilt get_inner_ring_radius get_ring_spacing
         get_average_depth_of_interaction get_max_num_non_arccorrected_bins
         get_num_axial_blocks_per_bucket get_num_transaxial_blocks_per_bucket
         get_num_axial_crystals_per_block get_num_transaxial_crystals_per_block
         get_num_axial_crystals_per_singles_unit
         get_num_transaxial_crystals_per_singles_unit get_num_detector_layers
         from_option id] in *.
    destruct Hvalues as ((I1 & I2 & I3 & I4 & I5 & I6 & I7 & I8 & I9 & I10 & I11)
                         & (F1 & F2 & F3 & F4 & F5)).
    rewrite !np_int32_small by assumption.
    rewrite F1, F2, F3, F4, F5. reflexivity. }
  split; [apply Hback |].
  intros Hname Hvalues. unfold bind.
  rewrite (known_scanner_name_looked_up name w Hname).
  apply Hback. exact Hvalues.
Qed.

End geometry_more.

Lemma scanner_round_trip_witness :
  engine_scanner_values mCT_stir_scanner /\
  get_stir_scanner (_scanner_from_stir mCT_stir_scanner) empty_world =
    (log (Ev_get_scanner_from_name "") empty_world, Return mCT_stir_scanner) /\
  ("ECAT 931" ∈ @SCANNER_NAMES sample_engine) /\
  engine_scanner_values (Scanner_get_scanner_from_name "ECAT 931") /\
  snd ((let* scanner := get_scanner_by_name "ECAT 931" in
        get_stir_scanner scanner) empty_world) =
    Raise (TypeError "Something is wrong in the scanner geometry.").
Proof.
  assert (Hvalues : engine_scanner_values mCT_stir_scanner).
  { unfold engine_scanner_values, int32_value, float32_value.
    cbn; conjuncts; (lia || reflexivity). }
  assert (Hblank : engine_scanner_values (Scanner_get_scanner_from_name "ECAT 931")).
  { unfold engine_scanner_values, int32_value, float32_value.
    cbn; conjuncts; (lia || reflexivity). }
  assert (Hname : "ECAT 931" ∈ @SCANNER_NAMES sample_engine).
  { apply (bool_decide_unpack _). vm_compute. exact I. }
  split; [exact Hvalues |]. split.
  - exact (proj1 (scanner_round_trip mCT_stir_scanner "" empty_world) Hvalues).
  - split; [exact Hname |]. split; [exact Hblank |].
    rewrite (proj2 (scanner_round_trip blank_scanner "ECAT 931" empty_world)
               Hname Hblank).
    reflexivity.
Defined.

(** ** compression.py: the sinogram table *)

Lemma zip_with_image {A B} (f : A -> B) (l : list A) :
  zip l (map f l) = map (fun x => (x, f x)) l.
Proof. induction l as [| x l IH]; [reflexivity |]. cbn. now rewrite IH. Qed.

Section sinogram_facts.
Context `{StirEngine} `{ProjDataInfoGetters}.

(** X14: when the scanner geometry is consistent, [_get_sinogram_info]
    returns one pair per segment number from the descriptor's minimum to its
    maximum, in increasing order and without repetition (none at all if the
    maximum is below the minimum), each with the size
    [max_axial_pos + 1 - min_axial_pos] of its segment; otherwise the
    geometry [TypeError] comes through. *)
Theorem sinogram_info_table (self : Compression) (w : World) :
  exists (s : StirScanner) (table : list (Z * Z)),
    let info :=
      ProjDataInfoCTI s (span_num self) (get_max_ring_diff self)
        (num_of_views self) (get_num_tangential self) (data_arc_corrected self) in
    let lo := get_min_segment_num info in
    let hi := get_max_segment_num info in
    _get_sinogram_info self w =
      (log (Ev_get_scanner_from_name "") w,
       if check_consistency_yes s then Return table
       else Raise (TypeError "Something is wrong in the scanner geometry.")) /\
    table.*1 = py_range lo (hi + 1) /\
    NoDup (table.*1) /\
    Z.of_nat (length table) = Z.max 0 (hi - lo + 1) /\
    Forall (fun entry =>
              lo <= entry.1 <= hi /\
              entry.2 = get_max_axial_pos_num info entry.1 + 1
                        - get_min_axial_pos_num info entry.1)
           table.
Proof.
  unfold _get_sinogram_info, get_stir_proj_data_info, bind, get_stir_scanner.
  rewrite stir_get_STIR_geometry_run.
  match goal with
  | |- context [check_consistency_yes ?x] => exists x
  end.
  eexists. cbv zeta. split.
  - destruct (check_consistency_yes _); cbn [ret]; reflexivity.
  - rewrite zip_with_image. unfold py_range.
    set (info := ProjDataInfoCTI _ _ _ _ _ _).
    set (lo := get_min_segment_num info).
    set (hi := get_max_segment_num info).
    assert (Hfst : (map (fun x : Z =>
                           (x, get_max_axial_pos_num info x + 1
                               - get_min_axial_pos_num info x))
                        (seqZ lo (hi + 1 - lo))).*1 = seqZ lo (hi + 1 - lo)).
    { rewrite <- list_fmap_compose. apply list_fmap_id. }
    conjuncts.
    + exact Hfst.
    + rewrite Hfst. apply NoDup_seqZ.
    + rewrite length_map, length_seqZ. lia.
    + apply Forall_map. apply Forall_seqZ. intros seg Hseg. cbn [fst snd].
      split; [lia | reflexivity].
Qed.

End sinogram_facts.

(** The default compression of [mCT]: fifteen segments, 64 sinograms. *)
Example sinogram_info_mCT :
  snd (_get_sinogram_info (Compression_init mCT) empty_world) =
  Return [(-7, 1); (-6, 2); (-5, 3); (-4, 4); (-3, 5); (-2, 6); (-1, 7);
          (0, 8); (1, 7); (2, 6); (3, 5); (4, 4); (5, 3); (6, 2); (7, 1)].
Proof. reflexivity. Qed.
